(** * VoxelWorld: a shallow embedding of [src/app/components/VoxelWorld.tsx]

    The component keeps its state in React refs and mutates it from event
    handlers and from the frame callback.  Here every handler is a function
    from [World] to [World].

    Numbers.  JavaScript numbers that measure continuous quantities (time,
    camera position, velocity) are read as real numbers: arithmetic is exact
    and there is no NaN, infinity or rounding.  Grid coordinates of voxels and
    the face normals of their unit boxes are integers and are kept in [Z]. *)

From Stdlib Require Import Reals Lra Lia ZArith List.
From Stdlib Require Import Ascii String DecimalString DecimalZ.
From stdpp Require Import gmap strings.

Local Open Scope R_scope.

(** ** JavaScript built-ins used by the component *)

Module Math.
Definition max (a b : R) : R := Rmax a b.
Definition min (a b : R) : R := Rmin a b.
Definition abs (a : R) : R := Rabs a.
Definition sqrt (a : R) : R := R_sqrt.sqrt a.
(** [Math.round] rounds half-way cases up. *)
Definition round (a : R) : Z := Int_part (a + / 2).
End Math.

(** [a || b] on numbers: [b] when [a] is zero. *)
Definition num_or (a b : R) : R := if Req_dec_T a 0 then b else a.

(** The comparisons [a < b], [a > b] and [a >= b] as JavaScript booleans. *)
Definition num_lt (a b : R) : bool := if Rlt_dec a b then true else false.
Definition num_gt (a b : R) : bool := num_lt b a.
Definition num_ge (a b : R) : bool := if Rle_dec b a then true else false.

(** ** THREE.Vector3 (the methods the component reaches) *)

Module Vector3.
Record t : Type := new { x : R; y : R; z : R }.

Definition set_x (v : t) (a : R) : t := new a (y v) (z v).
Definition set_y (v : t) (a : R) : t := new (x v) a (z v).
Definition set_z (v : t) (a : R) : t := new (x v) (y v) a.

Definition lengthSq (v : t) : R := x v * x v + y v * y v + z v * z v.
Definition length (v : t) : R := Math.sqrt (lengthSq v).
Definition multiplyScalar (v : t) (s : R) : t := new (x v * s) (y v * s) (z v * s).
Definition divideScalar (v : t) (s : R) : t := multiplyScalar v (1 / s).
Definition normalize (v : t) : t := divideScalar v (num_or (length v) 1).
Definition addScaledVector (p v : t) (s : R) : t :=
  new (x p + x v * s) (y p + y v * s) (z p + z v * s).
Definition crossVectors (a b : t) : t :=
  new (y a * z b - z a * y b) (z a * x b - x a * z b) (x a * y b - y a * x b).
End Vector3.

(** ** Grid cells *)

Module Cell.
Record t : Type := new { x : Z; y : Z; z : Z }.
Definition add (a b : t) : t := new (x a + x b) (y a + y b) (z a + z b).
End Cell.

(** ** Spatial key codec *)

(** Number-to-string conversion of an integer: decimal digits, with a leading
    minus sign for negative numbers. *)
Definition js_string_of_Z (n : Z) : string := NilZero.string_of_int (Z.to_int n).

(** Modelled from the spec: [keyFromPosition] is imported from
    [lib/voxelWorld], whose source is missing.  The spec describes it as the
    deterministic concatenation "x,y,z" of the three integer coordinates. *)
Definition keyFromPosition (x y z : Z) : string :=
  (js_string_of_Z x ++ "," ++ js_string_of_Z y ++ "," ++ js_string_of_Z z)%string.

(** ** Constants *)

Definition MOVE_SPEED : R := 12.
Definition SPRINT_MULTIPLIER : R := 21 / 10.
Definition GRAVITY : R := 30.
Definition JUMP_FORCE : R := 12.
Definition TERMINAL_VELOCITY : R := 48.


(** ** Scene objects and the voxel registry *)

(** The one material property the component sets. *)
Record Material : Type := MeshStandardMaterial { color : N }.
Definition Material_clone (m : Material) : Material := m.

Record BoxGeometry : Type := mkBoxGeometry { width : Z; height : Z; depth : Z }.

Record UserData : Type := mkUserData {
  isVoxel : bool;
  ud_position : Cell.t;
  ud_materialKey : string
}.

(** [mesh_id] is THREE's [Object3D.id]; object identity is identity of ids. *)
Record Mesh : Type := mkMesh {
  mesh_id : nat;
  mesh_geometry : BoxGeometry;
  mesh_material : Material;
  mesh_position : Cell.t;
  castShadow : bool;
  receiveShadow : bool;
  userData : UserData
}.

(** A child of the scene: a mesh carrying user data, or an object whose
    [userData] is the empty object (the lights, the ground plane). *)
Inductive Object3D : Type :=
| MeshObject (m : Mesh)
| PlainObject (id : nat).

Definition object_id (o : Object3D) : nat :=
  match o with MeshObject m => mesh_id m | PlainObject i => i end.

Module Scene.
Definition t : Type := list Object3D.
Definition add (o : Object3D) (children : t) : t := children ++ [o].
Definition remove (o : Object3D) (children : t) : t :=
  List.filter (fun c => negb (Nat.eqb (object_id c) (object_id o))) children.
End Scene.

(** [VoxelRegistryEntry] is declared in [src/lib/voxelWorld]; these are the
    fields the component writes at [voxelsRef.current.set]. *)
Record VoxelRegistryEntry : Type := mkEntry {
  mesh : Mesh;
  geometry : BoxGeometry;
  material : Material;
  materialKey : string
}.

Record Face : Type := mkFace { normal : Cell.t }.

(** One element of [raycaster.intersectObjects(...)]; the list comes from the
    render surface, nearest hit first. *)
Record Intersection : Type := mkIntersection {
  face : option Face;
  object : Object3D
}.

(** ** Camera and pointer-lock controls *)

(** PointerLockControls turns the camera about the world Y axis (yaw) and its
    own X axis (pitch), never about Z, so column 0 of the camera matrix is
    [(cos yaw, 0, - sin yaw)]; [up] is THREE's default [(0,1,0)]. *)
Record Camera : Type := mkCamera {
  cam_position : Vector3.t;
  yaw : R
}.

Definition Camera_up : Vector3.t := Vector3.new 0 1 0.
Definition matrixColumn0 (c : Camera) : Vector3.t :=
  Vector3.new (cos (yaw c)) 0 (- sin (yaw c)).
Definition set_cam_position (c : Camera) (p : Vector3.t) : Camera :=
  mkCamera p (yaw c).

Module PointerLockControls.
Inductive t : Type := new.
(** [controls.moveRight(distance)] on the camera the controls were built on. *)
Definition moveRight (c : Camera) (distance : R) : Camera :=
  let _vector := matrixColumn0 c in
  set_cam_position c (Vector3.addScaledVector (cam_position c) _vector distance).
Definition moveForward (c : Camera) (distance : R) : Camera :=
  let _vector := matrixColumn0 c in
  let _vector := Vector3.crossVectors Camera_up _vector in
  set_cam_position c (Vector3.addScaledVector (cam_position c) _vector distance).
End PointerLockControls.

(** ** Telemetry *)

(** A call of one of the React state setters that feed the overlay. *)
Inductive Publication : Type :=
| PubFps (v : Z)
| PubPosition (p : Vector3.t)
| PubBlockCount (n : nat).

Inductive Channel : Type := ChFps | ChPosition | ChBlockCount.

Definition channel_of (p : Publication) : Channel :=
  match p with
  | PubFps _ => ChFps
  | PubPosition _ => ChPosition
  | PubBlockCount _ => ChBlockCount
  end.

#[global] Instance Channel_eq_dec : EqDecision Channel.
Proof. solve_decision. Defined.

(** ** The component state

    The refs of the component, the React state that the overlay shows, and
    what the handlers read from the host.  The two flags that only switch
    the pointer-lock prompt ([locked], [promptVisible]) are left out. *)

Record World : Type := mkWorld {
  (* host *)
  hostNow : R;                      (* performance.now(), in ms *)
  pointerLocked : bool;             (* document.pointerLockElement is the canvas *)
  nextObjectId : nat;               (* THREE's object id counter *)
  (* refs *)
  cameraRef : option Camera;
  sceneRef : option Scene.t;
  controlsRef : option PointerLockControls.t;
  velocityRef : Vector3.t;
  directionRef : Vector3.t;
  keysRef : gset string;
  voxelsRef : gmap string VoxelRegistryEntry;
  lastFrameRef : R;
  (* React state shown by the overlay *)
  fps : Z;
  position : Vector3.t;
  blockCount : nat;
  (* every setter call so far, newest first, with the time of the call *)
  telemetry : list (R * Publication)
}.

Section Setters.
Variable w : World.

Definition set_hostNow (t : R) : World :=
  mkWorld t (pointerLocked w) (nextObjectId w) (cameraRef w) (sceneRef w)
    (controlsRef w) (velocityRef w) (directionRef w) (keysRef w) (voxelsRef w)
    (lastFrameRef w) (fps w) (position w) (blockCount w) (telemetry w).
Definition set_pointerLocked (b : bool) : World :=
  mkWorld (hostNow w) b (nextObjectId w) (cameraRef w) (sceneRef w)
    (controlsRef w) (velocityRef w) (directionRef w) (keysRef w) (voxelsRef w)
    (lastFrameRef w) (fps w) (position w) (blockCount w) (telemetry w).
Definition set_nextObjectId (n : nat) : World :=
  mkWorld (hostNow w) (pointerLocked w) n (cameraRef w) (sceneRef w)
    (controlsRef w) (velocityRef w) (directionRef w) (keysRef w) (voxelsRef w)
    (lastFrameRef w) (fps w) (position w) (blockCount w) (telemetry w).
Definition set_camera (c : Camera) : World :=
  mkWorld (hostNow w) (pointerLocked w) (nextObjectId w) (Some c) (sceneRef w)
    (controlsRef w) (velocityRef w) (directionRef w) (keysRef w) (voxelsRef w)
    (lastFrameRef w) (fps w) (position w) (blockCount w) (telemetry w).
Definition set_scene (s : Scene.t) : World :=
  mkWorld (hostNow w) (pointerLocked w) (nextObjectId w) (cameraRef w) (Some s)
    (controlsRef w) (velocityRef w) (directionRef w) (keysRef w) (voxelsRef w)
    (lastFrameRef w) (fps w) (position w) (blockCount w) (telemetry w).
Definition set_velocity (v : Vector3.t) : World :=
  mkWorld (hostNow w) (pointerLocked w) (nextObjectId w) (cameraRef w) (sceneRef w)
    (controlsRef w) v (directionRef w) (keysRef w) (voxelsRef w)
    (lastFrameRef w) (fps w) (position w) (blockCount w) (telemetry w).
Definition set_direction (d : Vector3.t) : World :=
  mkWorld (hostNow w) (pointerLocked w) (nextObjectId w) (cameraRef w) (sceneRef w)
    (controlsRef w) (velocityRef w) d (keysRef w) (voxelsRef w)
    (lastFrameRef w) (fps w) (position w) (blockCount w) (telemetry w).
Definition set_keys (k : gset string) : World :=
  mkWorld (hostNow w) (pointerLocked w) (nextObjectId w) (cameraRef w) (sceneRef w)
    (controlsRef w) (velocityRef w) (directionRef w) k (voxelsRef w)
    (lastFrameRef w) (fps w) (position w) (blockCount w) (telemetry w).
Definition set_voxels (m : gmap string VoxelRegistryEntry) : World :=
  mkWorld (hostNow w) (pointerLocked w) (nextObjectId w) (cameraRef w) (sceneRef w)
    (controlsRef w) (velocityRef w) (directionRef w) (keysRef w) m
    (lastFrameRef w) (fps w) (position w) (blockCount w) (telemetry w).
Definition set_lastFrame (t : R) : World :=
  mkWorld (hostNow w) (pointerLocked w) (nextObjectId w) (cameraRef w) (sceneRef w)
    (controlsRef w) (velocityRef w) (directionRef w) (keysRef w) (voxelsRef w)
    t (fps w) (position w) (blockCount w) (telemetry w).

(** The three React setters: store the value and hand it to the overlay. *)
Definition setFps (v : Z) : World :=
  mkWorld (hostNow w) (pointerLocked w) (nextObjectId w) (cameraRef w) (sceneRef w)
    (controlsRef w) (velocityRef w) (directionRef w) (keysRef w) (voxelsRef w)
    (lastFrameRef w) v (position w) (blockCount w)
    ((hostNow w, PubFps v) :: telemetry w).
Definition setPosition (p : Vector3.t) : World :=
  mkWorld (hostNow w) (pointerLocked w) (nextObjectId w) (cameraRef w) (sceneRef w)
    (controlsRef w) (velocityRef w) (directionRef w) (keysRef w) (voxelsRef w)
    (lastFrameRef w) (fps w) p (blockCount w)
    ((hostNow w, PubPosition p) :: telemetry w).
Definition setBlockCount (n : nat) : World :=
  mkWorld (hostNow w) (pointerLocked w) (nextObjectId w) (cameraRef w) (sceneRef w)
    (controlsRef w) (velocityRef w) (directionRef w) (keysRef w) (voxelsRef w)
    (lastFrameRef w) (fps w) (position w) n
    ((hostNow w, PubBlockCount n) :: telemetry w).
End Setters.

(** ** Picking and editing: [interactWithVoxel] *)

Inductive Mode : Type := ModeAdd | ModeRemove.

(** The predicate of [intersects.find]: [hit.object.userData?.isVoxel]. *)
Definition isVoxelHit (hit : Intersection) : bool :=
  match object hit with
  | MeshObject m => isVoxel (userData m)
  | PlainObject _ => false
  end.

Definition key_of_cell (c : Cell.t) : string :=
  keyFromPosition (Cell.x c) (Cell.y c) (Cell.z c).

(** [intersects] is what [raycaster.intersectObjects(scene.children, false)]
    returned for the ray through the centre of the view. *)
Definition interactWithVoxel (mode : Mode) (intersects : list Intersection)
    (w : World) : World :=
  match cameraRef w, sceneRef w with
  | Some camera, Some scene =>
    match List.find isVoxelHit intersects with
    | None => w
    | Some intersect =>
      match object intersect with
      | PlainObject _ => w        (* not reached: [find] keeps tagged meshes only *)
      | MeshObject obj =>
        match mode with
        | ModeRemove =>
          let p := ud_position (userData obj) in
          let key := keyFromPosition (Cell.x p) (Cell.y p) (Cell.z p) in
          if (Cell.y p <=? 0)%Z then w
          else
            let w := set_scene w (Scene.remove (MeshObject obj) scene) in
            let w := set_voxels w (delete key (voxelsRef w)) in
            setBlockCount w (size (voxelsRef w))
        | ModeAdd =>
          match face intersect with
          | None => w
          | Some f =>
            let normal := normal f in
            let voxel := ud_position (userData obj) in
            let targetPosition := Cell.add voxel normal in
            let key := key_of_cell targetPosition in
            match voxelsRef w !! key with
            | Some _ => w
            | None =>
              let entry := voxelsRef w !! key_of_cell voxel in
              let material :=
                match entry with
                | Some e => material e
                | None => MeshStandardMaterial 0x9ccf63%N
                end in
              let geometry :=
                match entry with
                | Some e => geometry e
                | None => mkBoxGeometry 1 1 1
                end in
              let mkey :=
                match entry with
                | Some e => materialKey e
                | None => "grass"%string
                end in
              let mesh :=
                mkMesh (nextObjectId w) geometry (Material_clone material)
                  targetPosition true true
                  (mkUserData true targetPosition mkey) in
              let w := set_nextObjectId w (S (nextObjectId w)) in
              let w := set_scene w (Scene.add (MeshObject mesh) scene) in
              let w := set_voxels w
                         (<[key := mkEntry mesh geometry (mesh_material mesh) mkey]>
                            (voxelsRef w)) in
              setBlockCount w (size (voxelsRef w))
            end
          end
        end
      end
    end
  | _, _ => w
  end.

(** ** Movement: [updateMovement] *)

Definition has_key (keys : gset string) (code : string) : bool :=
  bool_decide (code ∈ keys).

(** The body of [updateMovement], block by block in source order. *)

(** [direction.set(0,0,0)], the four key tests, [direction.normalize()]. *)
Definition intentDirection (keys : gset string) : Vector3.t :=
  let direction := Vector3.new 0 0 0 in
  let direction :=
    if has_key keys "KeyW"
    then Vector3.set_z direction (Vector3.z direction - 1) else direction in
  let direction :=
    if has_key keys "KeyS"
    then Vector3.set_z direction (Vector3.z direction + 1) else direction in
  let direction :=
    if has_key keys "KeyA"
    then Vector3.set_x direction (Vector3.x direction - 1) else direction in
  let direction :=
    if has_key keys "KeyD"
    then Vector3.set_x direction (Vector3.x direction + 1) else direction in
  Vector3.normalize direction.

(** [speed = MOVE_SPEED * moveMultiplier]. *)
Definition moveSpeed (keys : gset string) : R :=
  let sprint := has_key keys "ShiftLeft" || has_key keys "ShiftRight" in
  let moveMultiplier := if sprint then SPRINT_MULTIPLIER else 1 in
  MOVE_SPEED * moveMultiplier.

(** [if (direction.lengthSq() > 0) { velocity.x -= ...; velocity.z -= ... }]. *)
Definition accelerate (direction : Vector3.t) (speed delta : R)
    (velocity : Vector3.t) : Vector3.t :=
  if num_gt (Vector3.lengthSq direction) 0
  then
    let velocity :=
      Vector3.set_x velocity
        (Vector3.x velocity - Vector3.x direction * speed * delta) in
    Vector3.set_z velocity
      (Vector3.z velocity - Vector3.z direction * speed * delta)
  else velocity.

(** [velocity.y = Math.max(velocity.y - GRAVITY * delta, -TERMINAL_VELOCITY)]. *)
Definition applyGravity (delta : R) (velocity : Vector3.t) : Vector3.t :=
  Vector3.set_y velocity
    (Math.max (Vector3.y velocity - GRAVITY * delta) (- TERMINAL_VELOCITY)).

(** [moveRight], [moveForward], [camera.position.y += velocity.y * delta]. *)
Definition displace (delta : R) (velocity : Vector3.t) (camera : Camera) : Camera :=
  let camera := PointerLockControls.moveRight camera (- Vector3.x velocity * delta) in
  let camera := PointerLockControls.moveForward camera (- Vector3.z velocity * delta) in
  set_cam_position camera
    (Vector3.set_y (cam_position camera)
       (Vector3.y (cam_position camera) + Vector3.y velocity * delta)).

(** [if (camera.position.y < 3) { velocity.y = 0; camera.position.y = 3 }]. *)
Definition floorClamp (velocity : Vector3.t) (camera : Camera) : Vector3.t * Camera :=
  if num_lt (Vector3.y (cam_position camera)) 3
  then (Vector3.set_y velocity 0,
        set_cam_position camera (Vector3.set_y (cam_position camera) 3))
  else (velocity, camera).

(** [velocity.x -= velocity.x * 8 * delta; velocity.z -= velocity.z * 8 * delta]. *)
Definition damp (delta : R) (velocity : Vector3.t) : Vector3.t :=
  let velocity :=
    Vector3.set_x velocity (Vector3.x velocity - Vector3.x velocity * 8 * delta) in
  Vector3.set_z velocity (Vector3.z velocity - Vector3.z velocity * 8 * delta).

Definition updateMovement (delta : R) (w : World) : World :=
  match controlsRef w, cameraRef w with
  | Some controls, Some camera =>
    let keys := keysRef w in
    let velocity := velocityRef w in
    let speed := moveSpeed keys in
    let direction := intentDirection keys in
    let velocity := accelerate direction speed delta velocity in
    let velocity := applyGravity delta velocity in
    let camera := displace delta velocity camera in
    let '(velocity, camera) := floorClamp velocity camera in
    let velocity := damp delta velocity in
    set_camera (set_velocity (set_direction w direction) velocity) camera
  | _, _ => w
  end.

(** ** Input handlers *)

Definition onKeyDown (code : string) (w : World) : World :=
  let w := set_keys w ({[ code ]} ∪ keysRef w) in
  if String.eqb code "Space" && num_lt (Math.abs (Vector3.y (velocityRef w))) (5 / 100)
  then set_velocity w (Vector3.set_y (velocityRef w) JUMP_FORCE)
  else w.

Definition onKeyUp (code : string) (w : World) : World :=
  set_keys w (keysRef w ∖ {[ code ]}).

(** [isLocked] is what the host reports in [document.pointerLockElement]. *)
Definition onPointerLockChange (isLocked : bool) (w : World) : World :=
  let w := set_pointerLocked w isLocked in
  if isLocked then w
  else set_velocity (set_keys w ∅) (Vector3.new 0 0 0).

(** A press outside pointer lock only asks the host for the lock. *)
Definition onMouseDown (button : Z) (intersects : list Intersection)
    (w : World) : World :=
  if negb (pointerLocked w) then w
  else interactWithVoxel (if (button =? 2)%Z then ModeAdd else ModeRemove) intersects w.

(** ** The frame loop: [animate] *)

(** [const delta = Math.min(clock.getDelta(), 0.05)]; [clockDelta] is what the
    THREE clock returned, in seconds. *)
Definition frameDelta (clockDelta : R) : R := Math.min clockDelta (5 / 100).

(** The telemetry block at the end of [animate]; [performance.now()] is the
    host time of the frame. *)
Definition publishTelemetry (delta : R) (w : World) : World :=
  match cameraRef w with
  | None => w                     (* not reached: [animate] runs once mounted *)
  | Some camera =>
    let now := hostNow w in
    let elapsed := now - lastFrameRef w in
    if num_ge elapsed 250 then
      let pos := cam_position camera in
      let w := setFps w (Math.round (1 / delta)) in
      let w := setPosition w (Vector3.new (Vector3.x pos) (Vector3.y pos) (Vector3.z pos)) in
      set_lastFrame w now
    else w
  end.

(** [renderer.render(scene, camera)] draws and leaves the state alone. *)
Definition animate (clockDelta : R) (w : World) : World :=
  let delta := frameDelta clockDelta in
  let w := updateMovement delta w in
  publishTelemetry delta w.

(** ** Events, as the host delivers them to the single thread *)

Inductive Event : Type :=
| KeyDown (code : string)
| KeyUp (code : string)
| PointerLockChange (isLocked : bool)
| MouseDown (button : Z) (intersects : list Intersection)
| AnimationFrame (clockDelta : R).

Definition handle (e : Event) (w : World) : World :=
  match e with
  | KeyDown code => onKeyDown code w
  | KeyUp code => onKeyUp code w
  | PointerLockChange isLocked => onPointerLockChange isLocked w
  | MouseDown button intersects => onMouseDown button intersects w
  | AnimationFrame clockDelta => animate clockDelta w
  end.

(** An event together with the host time at which its handler runs. *)
Definition deliver (te : R * Event) (w : World) : World :=
  handle (snd te) (set_hostNow w (fst te)).

Definition run (trace : list (R * Event)) (w : World) : World :=
  fold_left (fun w te => deliver te w) trace w.

(** The times at which one channel of the overlay was written, newest first. *)
Definition channel_times (c : Channel) (log : list (R * Publication)) : list R :=
  map fst (List.filter (fun tp => bool_decide (channel_of (snd tp) = c)) log).

(** Every entry of a list of times, newest first, comes at least [gap] after
    the entry before it. *)
Fixpoint throttled (gap : R) (ts : list R) : Prop :=
  match ts with
  | [] => True
  | t2 :: earlier =>
    match earlier with
    | [] => True
    | t1 :: _ => gap <= t2 - t1
    end /\ throttled gap earlier
  end.

(** Repeated ticks with the same held keys and the same [delta]. *)
Definition ticks (n : nat) (delta : R) (w : World) : World :=
  Nat.iter n (updateMovement delta) w.

(** What one tick does to the pair (camera Y, velocity Y): gravity with the
    terminal cap, the displacement, then the floor clamp. *)
Definition verticalStep (delta : R) (s : R * R) : R * R :=
  let '(y, vy) := s in
  let vy := Math.max (vy - GRAVITY * delta) (- TERMINAL_VELOCITY) in
  let y := y + vy * delta in
  if num_lt y 3 then (3, 0) else (y, vy).

(** The least speed of descent once a fall has begun. *)
Definition descentRate (dt : R) : R := Rmin (30 * dt) 48.

(** After [n] ticks of a fall from height [y0] the pair (camera Y, velocity Y)
    either rests on the floor or is still above it, moving down, having lost
    at least [descentRate dt * dt] per tick. *)
Definition falling (dt y0 : R) (n : nat) (s : R * R) : Prop :=
  s = (3, 0) \/
  (3 <= fst s /\ snd s <= 0 /\ fst s <= y0 - INR n * (descentRate dt * dt)).

(** What the frame-driven channels need: their entries are spaced, and the
    newest one carries the time kept in [lastFrameRef]. *)
Definition frame_channels_ok (w : World) : Prop :=
  forall c : Channel, c <> ChBlockCount ->
    throttled 250 (channel_times c (telemetry w)) /\
    (forall t : R, head (channel_times c (telemetry w)) = Some t -> t = lastFrameRef w).

(** Whether the comma occurs in a string. *)
Fixpoint has_comma (s : string) : bool :=
  match s with
  | EmptyString => false
  | String c rest => (Ascii.eqb c "," || has_comma rest)%bool
  end.

(** ** A small mounted world

    A grass voxel at (5,4,5) and one on the floor layer at (5,0,5), the camera
    where the component first puts it. *)

Definition grass : Material := MeshStandardMaterial 0x9ccf63%N.
Definition unit_box : BoxGeometry := mkBoxGeometry 1 1 1.

Definition voxel_mesh (id : nat) (c : Cell.t) : Mesh :=
  mkMesh id unit_box grass c true true (mkUserData true c "grass").
Definition voxel_entry (id : nat) (c : Cell.t) : VoxelRegistryEntry :=
  mkEntry (voxel_mesh id c) unit_box grass "grass".

Definition block_545 : Mesh := voxel_mesh 1 (Cell.new 5 4 5).
Definition block_505 : Mesh := voxel_mesh 2 (Cell.new 5 0 5).

Definition demo_camera : Camera := mkCamera (Vector3.new 0 18 24) 0.
Definition demo_scene : Scene.t :=
  [PlainObject 0; MeshObject block_545; MeshObject block_505].
Definition demo_registry : gmap string VoxelRegistryEntry :=
  <[keyFromPosition 5 4 5 := voxel_entry 1 (Cell.new 5 4 5)]>
    (<[keyFromPosition 5 0 5 := voxel_entry 2 (Cell.new 5 0 5)]> ∅).

Definition demo_world : World :=
  mkWorld 0 true 3 (Some demo_camera) (Some demo_scene)
    (Some PointerLockControls.new) (Vector3.new 0 0 0) (Vector3.new 0 0 0) ∅
    demo_registry 0 0 (Vector3.new 0 0 0) 2 [].

(** Looking down at the top face of a block, and a hit without a face. *)
Definition hit_top (m : Mesh) : Intersection :=
  mkIntersection (Some (mkFace (Cell.new 0 1 0))) (MeshObject m).
Definition hit_faceless (m : Mesh) : Intersection :=
  mkIntersection None (MeshObject m).

(** A double right click, 100 ms apart, looking down at (5,4,5): the first
    click puts a block on top of it, the second one hits that new block and
    puts another on top. *)
Definition block_555 : Mesh := voxel_mesh 3 (Cell.new 5 5 5).
Definition two_clicks : list (R * Event) :=
  [(0, MouseDown 2 [hit_top block_545]);
   (100, MouseDown 2 [hit_top block_555; hit_top block_545])].

(** Two frames 300 ms apart. *)
Definition two_frames : list (R * Event) :=
  [(300, AnimationFrame (16 / 1000)); (600, AnimationFrame (16 / 1000))].

(** ** Invariants and sample inputs for the further properties *)

(** The block count on the overlay is the size of the registry. *)
Definition count_in_sync (w : World) : Prop :=
  blockCount w = size (voxelsRef w).

(** Every record sits under the key of the cell its mesh occupies, and its
    mesh carries the voxel tag with that same cell. *)
Definition registry_keys_ok (w : World) : Prop :=
  forall (k : string) (e : VoxelRegistryEntry),
    voxelsRef w !! k = Some e ->
    k = key_of_cell (mesh_position (mesh e)) /\
    ud_position (userData (mesh e)) = mesh_position (mesh e) /\
    isVoxel (userData (mesh e)) = true.

(** The camera, once there is one, is at or above the floor height. *)
Definition camera_above_floor (w : World) : Prop :=
  forall cam : Camera, cameraRef w = Some cam -> 3 <= Vector3.y (cam_position cam).

(** Velocity Y lies between the terminal velocity and the jump speed. *)
Definition vertical_speed_ok (w : World) : Prop :=
  - TERMINAL_VELOCITY <= Vector3.y (velocityRef w) <= JUMP_FORCE.

(** The clock of every frame of a trace reports a delta of at least [lo]. *)
Definition clock_deltas_from (lo : R) (trace : list (R * Event)) : Prop :=
  Forall (fun te : R * Event =>
            match snd te with
            | AnimationFrame clockDelta => lo <= clockDelta
            | _ => True
            end) trace.



(** A hit on the ground plane, which carries no voxel tag. *)
Definition hit_ground : Intersection :=
  mkIntersection (Some (mkFace (Cell.new 0 1 0))) (PlainObject 0).

(** The small world with W and S held and the player moving sideways. *)
Definition strafing_world : World :=
  set_velocity (set_keys demo_world ({[ "KeyW"%string ]} ∪ {[ "KeyS"%string ]}))
    (Vector3.new 2 0 0).

(** The small world in the middle of a jump, with D held. *)
Definition jumping_world : World :=
  set_velocity (set_keys demo_world {[ "KeyD"%string ]}) (Vector3.new 3 12 (- 1)).

(** The small world right after a jump from the floor. *)
Definition takeoff_world : World :=
  set_velocity (set_camera demo_world (mkCamera (Vector3.new 0 3 24) 0))
    (Vector3.new 0 12 0).

(** No event of a trace reports that the pointer lock was gained. *)
Definition never_locks (trace : list (R * Event)) : Prop :=
  Forall (fun te : R * Event =>
            match snd te with
            | PointerLockChange true => False
            | _ => True
            end) trace.

(** The small world with D and the left shift key held, the player already
    moving. *)
Definition sprinting_world : World :=
  set_velocity (set_keys demo_world ({[ "KeyD"%string ]} ∪ {[ "ShiftLeft"%string ]}))
    (Vector3.new 1 0 2).

(** * Properties *)

(** ** The key codec *)

Section Codec.
Local Open Scope string_scope.

Lemma digits_no_comma (d : Decimal.uint) :
  has_comma (NilEmpty.string_of_uint d) = false.
Proof. induction d; simpl; auto. Qed.

Lemma js_string_of_Z_no_comma (n : Z) : has_comma (js_string_of_Z n) = false.
Proof.
  unfold js_string_of_Z.
  destruct n as [|p|p]; simpl; [reflexivity| |];
    destruct (Pos.to_uint p) eqn:E; simpl; auto using digits_no_comma;
    rewrite <- E; apply digits_no_comma.
Qed.

Lemma js_string_of_Z_inj (a b : Z) :
  js_string_of_Z a = js_string_of_Z b -> a = b.
Proof.
  unfold js_string_of_Z. intros E.
  apply DecimalZ.to_int_inj.
  assert (nonnil : forall n : Z,
             Z.to_int n <> Decimal.Pos Decimal.Nil /\
             Z.to_int n <> Decimal.Neg Decimal.Nil).
  { intros [|p|p]; simpl; split; try discriminate;
      intros [= H]; exact (DecimalPos.Unsigned.to_uint_nonnil p H). }
  destruct (nonnil a) as [a1 a2], (nonnil b) as [b1 b2].
  pose proof (NilZero.isi _ a1 a2) as Ha.
  pose proof (NilZero.isi _ b1 b2) as Hb.
  rewrite E in Ha. rewrite Ha in Hb. now injection Hb.
Qed.

(** A comma-free field is cut off by the first comma. *)
Lemma field_split (a a' r r' : string) :
  has_comma a = false -> has_comma a' = false ->
  a ++ String "," r = a' ++ String "," r' -> a = a' /\ r = r'.
Proof.
  revert a'. induction a as [|c a IH]; intros [|c' a'] Ha Ha' E; simpl in *.
  - injection E as ->. auto.
  - injection E as <- _. simpl in Ha'. discriminate.
  - injection E as -> _. simpl in Ha. discriminate.
  - injection E as -> E.
    apply orb_false_iff in Ha as [_ Ha]. apply orb_false_iff in Ha' as [_ Ha'].
    destruct (IH a' Ha Ha' E) as [-> ->]. auto.
Qed.
End Codec.

(** C8: the key codec is a function of the coordinates alone and it is
    injective on all integer coordinates: two cells have the same key exactly
    when they are the same cell. *)
Theorem keyFromPosition_injective (x y z x' y' z' : Z) :
  keyFromPosition x y z = keyFromPosition x' y' z' <->
  (x = x' /\ y = y' /\ z = z').
Proof.
  split.
  - unfold keyFromPosition. intros E.
    apply field_split in E as [Ex E]; try apply js_string_of_Z_no_comma.
    apply field_split in E as [Ey Ez]; try apply js_string_of_Z_no_comma.
    auto using js_string_of_Z_inj.
  - intros (-> & -> & ->). reflexivity.
Qed.

Example key_1_2_m3 : keyFromPosition 1 2 (-3) = "1,2,-3"%string.
Proof. reflexivity. Qed.

Example keys_differ_on_sign : keyFromPosition 1 2 3 <> keyFromPosition 1 2 (-3).
Proof. discriminate. Qed.

Example keys_differ_on_grouping : keyFromPosition 12 3 4 <> keyFromPosition 1 23 4.
Proof. discriminate. Qed.

(** ** Editing *)

Section Edit.
Variables (w : World) (camera : Camera) (scene : Scene.t).
Variables (intersects : list Intersection) (hit : Intersection) (obj : Mesh).
Hypothesis has_camera : cameraRef w = Some camera.
Hypothesis has_scene : sceneRef w = Some scene.
Hypothesis first_voxel_hit : List.find isVoxelHit intersects = Some hit.
Hypothesis hit_object : object hit = MeshObject obj.

Lemma interact_remove :
  interactWithVoxel ModeRemove intersects w =
  let p := ud_position (userData obj) in
  if (Cell.y p <=? 0)%Z then w
  else
    let w1 := set_scene w (Scene.remove (MeshObject obj) scene) in
    let w2 := set_voxels w1 (delete (key_of_cell p) (voxelsRef w)) in
    setBlockCount w2 (size (delete (key_of_cell p) (voxelsRef w))).
Proof.
  unfold interactWithVoxel.
  rewrite has_camera, has_scene, first_voxel_hit, hit_object. reflexivity.
Qed.

Lemma interact_add (n : Cell.t) :
  face hit = Some (mkFace n) ->
  interactWithVoxel ModeAdd intersects w =
  let voxel := ud_position (userData obj) in
  let target := Cell.add voxel n in
  match voxelsRef w !! key_of_cell target with
  | Some _ => w
  | None =>
    let entry := voxelsRef w !! key_of_cell voxel in
    let geometry := from_option geometry (mkBoxGeometry 1 1 1) entry in
    let material := from_option material (MeshStandardMaterial 0x9ccf63%N) entry in
    let mkey := from_option materialKey "grass"%string entry in
    let m := mkMesh (nextObjectId w) geometry material target true true
               (mkUserData true target mkey) in
    let registry := <[key_of_cell target := mkEntry m geometry material mkey]> (voxelsRef w) in
    let w1 := set_nextObjectId w (S (nextObjectId w)) in
    let w2 := set_scene w1 (scene ++ [MeshObject m]) in
    let w3 := set_voxels w2 registry in
    setBlockCount w3 (size registry)
  end.
Proof.
  intros Hface. unfold interactWithVoxel.
  rewrite has_camera, has_scene, first_voxel_hit, hit_object, Hface. simpl.
  destruct (voxelsRef w !! key_of_cell (Cell.add (ud_position (userData obj)) n));
    [reflexivity|].
  destruct (voxelsRef w !! key_of_cell (ud_position (userData obj))); reflexivity.
Qed.
End Edit.

(** C1: an add that hits the voxel at (x,y,z) on its face with normal (0,1,0)
    puts a new voxel at exactly (x,y+1,z) into the registry (and into the
    scene) when that cell is free; for any face normal, when the target cell
    (hit cell plus normal) is already in the registry the add changes
    nothing. *)
Theorem add_adjacent_correct
    (w : World) (camera : Camera) (scene : Scene.t)
    (intersects : list Intersection) (hit : Intersection) (obj : Mesh) (x y z : Z) :
  cameraRef w = Some camera ->
  sceneRef w = Some scene ->
  List.find isVoxelHit intersects = Some hit ->
  object hit = MeshObject obj ->
  ud_position (userData obj) = Cell.new x y z ->
  (face hit = Some (mkFace (Cell.new 0 1 0)) ->
   voxelsRef w !! keyFromPosition x (y + 1) z = None ->
   let w' := interactWithVoxel ModeAdd intersects w in
   exists e : VoxelRegistryEntry,
     voxelsRef w' = <[keyFromPosition x (y + 1) z := e]> (voxelsRef w) /\
     voxelsRef w' !! keyFromPosition x (y + 1) z = Some e /\
     mesh_position (mesh e) = Cell.new x (y + 1) z /\
     ud_position (userData (mesh e)) = Cell.new x (y + 1) z /\
     isVoxel (userData (mesh e)) = true /\
     sceneRef w' = Some (scene ++ [MeshObject (mesh e)]) /\
     size (voxelsRef w') = S (size (voxelsRef w))) /\
  (forall n : Cell.t,
     face hit = Some (mkFace n) ->
     is_Some (voxelsRef w !! key_of_cell (Cell.add (Cell.new x y z) n)) ->
     interactWithVoxel ModeAdd intersects w = w).
Proof.
  intros Hcam Hscene Hfind Hobj Hpos. split.
  - intros Hface Hfree w'. subst w'.
    rewrite (interact_add w camera scene intersects hit obj Hcam Hscene Hfind Hobj _ Hface).
    rewrite Hpos. cbn zeta.
    assert (Ht : Cell.add (Cell.new x y z) (Cell.new 0 1 0) = Cell.new x (y + 1) z)
      by (unfold Cell.add; simpl; f_equal; lia).
    rewrite Ht.
    change (key_of_cell (Cell.new x (y + 1) z)) with (keyFromPosition x (y + 1) z).
    rewrite Hfree.
    eexists. simpl. repeat split.
    + apply lookup_insert_eq.
    + apply map_size_insert_None, Hfree.
  - intros n Hface [e He].
    rewrite (interact_add w camera scene intersects hit obj Hcam Hscene Hfind Hobj _ Hface).
    rewrite Hpos. cbn zeta. rewrite He. reflexivity.
Qed.

(** C2: a remove that hits a voxel with Y <= 0 changes nothing (so no record
    is deleted and the registry keeps its size); for Y > 0 the record under
    the voxel's key is deleted from the registry. *)
Theorem remove_floor_guard
    (w : World) (camera : Camera) (scene : Scene.t)
    (intersects : list Intersection) (hit : Intersection) (obj : Mesh) (x y z : Z) :
  cameraRef w = Some camera ->
  sceneRef w = Some scene ->
  List.find isVoxelHit intersects = Some hit ->
  object hit = MeshObject obj ->
  ud_position (userData obj) = Cell.new x y z ->
  let w' := interactWithVoxel ModeRemove intersects w in
  ((y <= 0)%Z ->
     w' = w /\ size (voxelsRef w') = size (voxelsRef w)) /\
  ((0 < y)%Z ->
     voxelsRef w' = delete (keyFromPosition x y z) (voxelsRef w) /\
     voxelsRef w' !! keyFromPosition x y z = None).
Proof.
  intros Hcam Hscene Hfind Hobj Hpos w'. subst w'.
  rewrite (interact_remove w camera scene intersects hit obj Hcam Hscene Hfind Hobj).
  rewrite Hpos. cbn zeta. simpl Cell.y. split; intros Hy.
  - apply Z.leb_le in Hy. rewrite Hy. auto.
  - apply Z.leb_gt in Hy. rewrite Hy. simpl. split; [reflexivity|].
    apply lookup_delete_eq.
Qed.

(** C10: in add mode, when the first voxel hit carries no face, nothing
    changes: registry, scene and every other part of the state stay as they
    were. *)
Theorem add_without_face_is_noop
    (w : World) (intersects : list Intersection) (hit : Intersection) :
  List.find isVoxelHit intersects = Some hit ->
  face hit = None ->
  interactWithVoxel ModeAdd intersects w = w.
Proof.
  intros Hfind Hface. unfold interactWithVoxel.
  destruct (cameraRef w); [|reflexivity].
  destruct (sceneRef w); [|reflexivity].
  rewrite Hfind. destruct (object hit); [|reflexivity].
  rewrite Hface. reflexivity.
Qed.

(** On the small world: a right click on the top face of (5,4,5). *)
Lemma add_adjacent_correct_witness :
  exists e : VoxelRegistryEntry,
    voxelsRef (interactWithVoxel ModeAdd [hit_top block_545] demo_world)
      !! keyFromPosition 5 5 5 = Some e /\
    mesh_position (mesh e) = Cell.new 5 5 5.
Proof.
  destruct (add_adjacent_correct demo_world demo_camera demo_scene
              [hit_top block_545] (hit_top block_545) block_545 5 4 5
              eq_refl eq_refl eq_refl eq_refl eq_refl) as [Hadd _].
  destruct (Hadd eq_refl eq_refl) as (e & _ & Hlookup & Hmesh & _).
  exists e. split; [exact Hlookup | exact Hmesh].
Defined.

(** On the small world: a left click on the floor block (5,0,5) and one on
    the block (5,4,5). *)
Lemma remove_floor_guard_witness :
  interactWithVoxel ModeRemove [hit_top block_505] demo_world = demo_world /\
  voxelsRef (interactWithVoxel ModeRemove [hit_top block_545] demo_world)
    !! keyFromPosition 5 4 5 = None.
Proof.
  split.
  - apply (remove_floor_guard demo_world demo_camera demo_scene
             [hit_top block_505] (hit_top block_505) block_505 5 0 5
             eq_refl eq_refl eq_refl eq_refl eq_refl).
    lia.
  - apply (remove_floor_guard demo_world demo_camera demo_scene
             [hit_top block_545] (hit_top block_545) block_545 5 4 5
             eq_refl eq_refl eq_refl eq_refl eq_refl).
    lia.
Defined.

(** On the small world: a right click whose hit has no face. *)
Lemma add_without_face_is_noop_witness :
  interactWithVoxel ModeAdd [hit_faceless block_545] demo_world = demo_world.
Proof.
  apply (add_without_face_is_noop demo_world [hit_faceless block_545]
           (hit_faceless block_545)); reflexivity.
Defined.

(** ** Movement *)

Lemma num_lt_true (a b : R) : a < b -> num_lt a b = true.
Proof. intros H. unfold num_lt. destruct (Rlt_dec a b); [reflexivity | contradiction]. Qed.

Lemma num_lt_false (a b : R) : ~ a < b -> num_lt a b = false.
Proof. intros H. unfold num_lt. destruct (Rlt_dec a b); [contradiction | reflexivity]. Qed.

Lemma num_ge_true (a b : R) : b <= a -> num_ge a b = true.
Proof. intros H. unfold num_ge. destruct (Rle_dec b a); [reflexivity | contradiction]. Qed.

Lemma num_ge_false (a b : R) : ~ b <= a -> num_ge a b = false.
Proof. intros H. unfold num_ge. destruct (Rle_dec b a); [contradiction | reflexivity]. Qed.

Lemma accelerate_y (d : Vector3.t) (speed delta : R) (v : Vector3.t) :
  Vector3.y (accelerate d speed delta v) = Vector3.y v.
Proof. unfold accelerate. destruct (num_gt _ _); reflexivity. Qed.

Lemma damp_y (delta : R) (v : Vector3.t) : Vector3.y (damp delta v) = Vector3.y v.
Proof. reflexivity. Qed.

Lemma displace_y (delta : R) (v : Vector3.t) (c : Camera) :
  Vector3.y (cam_position (displace delta v c)) =
  Vector3.y (cam_position c) + Vector3.y v * delta.
Proof. unfold displace. simpl. ring. Qed.

Lemma floorClamp_vertical (v : Vector3.t) (c : Camera) :
  let y := Vector3.y (cam_position c) in
  let '(v', c') := floorClamp v c in
  (Vector3.y (cam_position c'), Vector3.y v') =
  if num_lt y 3 then (3, 0) else (y, Vector3.y v).
Proof. unfold floorClamp. simpl. destruct (num_lt _ _); reflexivity. Qed.

Section Tick.
Variables (delta : R) (w : World) (controls : PointerLockControls.t) (camera : Camera).
Hypothesis tick_controls : controlsRef w = Some controls.
Hypothesis tick_camera : cameraRef w = Some camera.

(** The tick with both handles in place, as one pipeline. *)
Lemma updateMovement_mounted :
  updateMovement delta w =
  let direction := intentDirection (keysRef w) in
  let v1 := accelerate direction (moveSpeed (keysRef w)) delta (velocityRef w) in
  let v2 := applyGravity delta v1 in
  let c1 := displace delta v2 camera in
  let vc := floorClamp v2 c1 in
  set_camera (set_velocity (set_direction w direction) (damp delta (fst vc))) (snd vc).
Proof.
  unfold updateMovement. rewrite tick_controls, tick_camera. cbv zeta.
  destruct (floorClamp _ _). reflexivity.
Qed.

Lemma updateMovement_vertical :
  exists camera',
    cameraRef (updateMovement delta w) = Some camera' /\
    (Vector3.y (cam_position camera'), Vector3.y (velocityRef (updateMovement delta w))) =
    verticalStep delta (Vector3.y (cam_position camera), Vector3.y (velocityRef w)).
Proof.
  rewrite updateMovement_mounted. cbv zeta.
  set (v2 := applyGravity delta _).
  set (c1 := displace delta v2 camera).
  pose proof (floorClamp_vertical v2 c1) as H. cbv zeta in H.
  destruct (floorClamp v2 c1) as [v' c'] eqn:E.
  exists c'. split; [reflexivity|].
  simpl. rewrite H. unfold c1. rewrite displace_y.
  unfold v2, applyGravity. simpl. rewrite accelerate_y. reflexivity.
Qed.

Lemma updateMovement_frame :
  controlsRef (updateMovement delta w) = controlsRef w /\
  keysRef (updateMovement delta w) = keysRef w /\
  telemetry (updateMovement delta w) = telemetry w /\
  lastFrameRef (updateMovement delta w) = lastFrameRef w /\
  hostNow (updateMovement delta w) = hostNow w.
Proof. rewrite updateMovement_mounted. cbv zeta. repeat split. Qed.
End Tick.

(** C3: the vertical part of a tick.  Velocity Y first becomes
    max(velocity.y - 30 * delta, -48); that velocity times delta is added to
    the camera Y; and when the sum is below the floor height 3 the tick ends
    with velocity Y = 0 and camera Y = 3, otherwise with the new velocity and
    the new height. *)
Theorem vertical_update_correct
    (delta : R) (w : World) (controls : PointerLockControls.t) (camera : Camera) :
  controlsRef w = Some controls ->
  cameraRef w = Some camera ->
  let vy := Math.max (Vector3.y (velocityRef w) - 30 * delta) (- 48) in
  let y := Vector3.y (cam_position camera) + vy * delta in
  let w' := updateMovement delta w in
  GRAVITY = 30 /\ TERMINAL_VELOCITY = 48 /\
  exists camera',
    cameraRef w' = Some camera' /\
    (y < 3 ->
       Vector3.y (velocityRef w') = 0 /\ Vector3.y (cam_position camera') = 3) /\
    (~ y < 3 ->
       Vector3.y (velocityRef w') = vy /\ Vector3.y (cam_position camera') = y).
Proof.
  intros Hcontrols Hcamera vy y w'.
  split; [reflexivity|]. split; [reflexivity|].
  destruct (updateMovement_vertical delta w controls camera Hcontrols Hcamera)
    as (camera' & Hcam' & Hstep).
  exists camera'. split; [exact Hcam'|].
  unfold verticalStep in Hstep. fold GRAVITY TERMINAL_VELOCITY in vy.
  change (Math.max _ _) with vy in Hstep.
  change (Vector3.y (cam_position camera) + vy * delta) with y in Hstep.
  split; intros Hy.
  - rewrite (num_lt_true _ _ Hy) in Hstep. injection Hstep as Hy' Hvy'. auto.
  - rewrite (num_lt_false _ _ Hy) in Hstep. injection Hstep as Hy' Hvy'. auto.
Qed.

(** The first tick of the fall from the starting height 18, delta = 10 ms. *)
Lemma vertical_update_correct_witness :
  exists camera',
    cameraRef (updateMovement (1 / 100) demo_world) = Some camera' /\
    Vector3.y (cam_position camera') =
    18 + Math.max (0 - 30 * (1 / 100)) (- 48) * (1 / 100).
Proof.
  destruct (vertical_update_correct (1 / 100) demo_world PointerLockControls.new
              demo_camera eq_refl eq_refl) as (_ & _ & camera' & Hcam & _ & Hair).
  exists camera'. split; [exact Hcam|].
  apply Hair. simpl. unfold Math.max, Rmax.
  destruct (Rle_dec _ _); lra.
Defined.

(** *** Falling to the floor *)

Section Falling.
Variables (dt y0 : R).
Hypothesis dt_pos : 0 < dt.

Let c : R := descentRate dt.

Lemma descent_positive : 0 < c * dt.
Proof.
  apply Rmult_lt_0_compat; [|exact dt_pos].
  unfold c, descentRate. apply Rmin_glb_lt; lra.
Qed.

Lemma verticalStep_at_rest : verticalStep dt (3, 0) = (3, 0).
Proof.
  unfold verticalStep, GRAVITY, TERMINAL_VELOCITY, Math.max.
  set (v := Rmax _ _).
  assert (Hv : v < 0) by (apply Rmax_lub_lt; lra).
  rewrite num_lt_true; [reflexivity|]. nra.
Qed.

Lemma falling_step (n : nat) (s : R * R) :
  falling dt y0 n s -> falling dt y0 (S n) (verticalStep dt s).
Proof.
  intros [-> | (Hy & Hvy & Hbound)].
  - left. apply verticalStep_at_rest.
  - destruct s as [y vy]. simpl in Hy, Hvy, Hbound. fold c in Hbound.
    unfold verticalStep, GRAVITY, TERMINAL_VELOCITY, Math.max.
    set (vy' := Rmax _ _).
    assert (Hc1 : c <= 30 * dt) by apply Rmin_l.
    assert (Hc2 : c <= 48) by apply Rmin_r.
    assert (Hvy' : vy' <= - c) by (apply Rmax_lub; lra).
    pose proof descent_positive as Hpos.
    unfold num_lt. destruct (Rlt_dec (y + vy' * dt) 3) as [Hlow | Hhigh].
    + left. reflexivity.
    + right. cbn [fst snd]. fold c. rewrite S_INR. repeat split; nra.
Qed.

Lemma falling_iter (n : nat) :
  3 <= y0 -> falling dt y0 n (Nat.iter n (verticalStep dt) (y0, 0)).
Proof.
  intros Hy0. induction n as [|n IH].
  - right. simpl. lra.
  - simpl. apply falling_step, IH.
Qed.

Lemma reaches_floor :
  3 <= y0 ->
  exists N : nat, forall n : nat, (N <= n)%nat ->
    Nat.iter n (verticalStep dt) (y0, 0) = (3, 0).
Proof.
  intros Hy0. pose proof descent_positive as Hpos.
  set (r := (y0 - 3) / (c * dt)).
  destruct (archimed r) as [Hup _].
  assert (Hr : 0 <= r).
  { unfold r, Rdiv. apply Rmult_le_pos; [lra|].
    apply Rlt_le, Rinv_0_lt_compat, Hpos. }
  assert (HupZ : (0 <= up r)%Z) by (apply le_IZR; lra).
  exists (Z.to_nat (up r)). intros n Hn.
  destruct (falling_iter n Hy0) as [Hrest | (Hy & _ & Hbound)]; [exact Hrest|].
  exfalso. fold c in Hbound.
  assert (Hle : IZR (up r) <= INR n).
  { rewrite INR_IZR_INZ. apply IZR_le. lia. }
  assert (Hgap : y0 - 3 < INR n * (c * dt)).
  { apply Rlt_le_trans with (IZR (up r) * (c * dt)).
    - assert (Hr' : r * (c * dt) = y0 - 3).
      { unfold r, Rdiv. rewrite Rmult_assoc, Rinv_l, Rmult_1_r;
          [reflexivity | apply Rgt_not_eq, Hpos]. }
      rewrite <- Hr'. apply Rmult_lt_compat_r; [exact Hpos | lra].
    - apply Rmult_le_compat_r; lra. }
  lra.
Qed.
End Falling.

Lemma ticks_vertical (n : nat) (dt : R) (w : World)
    (controls : PointerLockControls.t) (camera : Camera) :
  controlsRef w = Some controls ->
  cameraRef w = Some camera ->
  exists camera',
    cameraRef (ticks n dt w) = Some camera' /\
    controlsRef (ticks n dt w) = Some controls /\
    (Vector3.y (cam_position camera'), Vector3.y (velocityRef (ticks n dt w))) =
    Nat.iter n (verticalStep dt)
      (Vector3.y (cam_position camera), Vector3.y (velocityRef w)).
Proof.
  intros Hcontrols Hcamera. induction n as [|n (cam & Hcam & Hctl & Hstate)].
  - exists camera. auto.
  - unfold ticks in *. simpl.
    destruct (updateMovement_vertical dt _ controls cam Hctl Hcam) as (cam' & Hcam' & Hstep).
    destruct (updateMovement_frame dt _ controls cam Hctl Hcam) as (Hctl' & _).
    exists cam'. split; [exact Hcam'|]. split; [congruence|].
    rewrite Hstep, Hstate. reflexivity.
Qed.

(** C4: from any camera height above the floor with velocity Y = 0, repeating
    the tick with a fixed delta, 0 < delta <= 0.05, and without any jump,
    there is a tick from which on the camera Y is exactly the floor height 3
    and velocity Y is 0 after every tick. *)
Theorem falls_to_floor_and_stays
    (dt : R) (w : World) (controls : PointerLockControls.t) (camera : Camera) :
  controlsRef w = Some controls ->
  cameraRef w = Some camera ->
  3 < Vector3.y (cam_position camera) ->
  Vector3.y (velocityRef w) = 0 ->
  0 < dt -> dt <= 5 / 100 ->
  exists N : nat, forall n : nat, (N <= n)%nat ->
    exists camera',
      cameraRef (ticks n dt w) = Some camera' /\
      Vector3.y (cam_position camera') = 3 /\
      Vector3.y (velocityRef (ticks n dt w)) = 0.
Proof.
  intros Hcontrols Hcamera Habove Hrest Hdt _.
  destruct (reaches_floor dt (Vector3.y (cam_position camera)) Hdt) as [N HN]; [lra|].
  exists N. intros n Hn.
  destruct (ticks_vertical n dt w controls camera Hcontrols Hcamera)
    as (cam' & Hcam' & _ & Hstate).
  rewrite Hrest, (HN n Hn) in Hstate. injection Hstate as Hy Hvy.
  exists cam'. auto.
Qed.

(** The fall from the starting height 18 with delta = 10 ms. *)
Lemma falls_to_floor_and_stays_witness :
  exists N : nat, forall n : nat, (N <= n)%nat ->
    exists camera',
      cameraRef (ticks n (1 / 100) demo_world) = Some camera' /\
      Vector3.y (cam_position camera') = 3 /\
      Vector3.y (velocityRef (ticks n (1 / 100) demo_world)) = 0.
Proof.
  apply (falls_to_floor_and_stays (1 / 100) demo_world PointerLockControls.new demo_camera);
    simpl; try reflexivity; lra.
Defined.

(** ** Jumping *)

(** C5: a jump command (key down with code "Space") leaves the velocity as it
    is while |velocity.y| is greater than the threshold 0.05, and sets
    velocity.y to exactly the jump speed 12 (X and Z untouched) while
    |velocity.y| is below the threshold. *)
Theorem jump_only_at_rest (w : World) :
  let vy := Vector3.y (velocityRef w) in
  let w' := onKeyDown "Space" w in
  JUMP_FORCE = 12 /\
  (Math.abs vy > 5 / 100 -> velocityRef w' = velocityRef w) /\
  (Math.abs vy < 5 / 100 ->
     velocityRef w' = Vector3.set_y (velocityRef w) 12 /\
     Vector3.y (velocityRef w') = 12).
Proof.
  intros vy w'. split; [reflexivity|].
  unfold w', onKeyDown. simpl. fold vy. split; intros H.
  - rewrite num_lt_false; [reflexivity | lra].
  - rewrite num_lt_true; [|exact H]. split; reflexivity.
Qed.

(** A jump from rest. *)
Lemma jump_only_at_rest_witness :
  Vector3.y (velocityRef (onKeyDown "Space" demo_world)) = 12.
Proof.
  apply (jump_only_at_rest demo_world). simpl.
  unfold Math.abs. rewrite Rabs_R0. lra.
Defined.

(** ** Horizontal movement *)

(** C6: the horizontal part of a tick.  The speed is 12, times 2.1 while a
    shift key is held; when the normalized intent direction is not the zero
    vector, velocity X and Z lose intent times speed times delta; the camera
    is displaced with that velocity; afterwards velocity X and Z lose 8 times
    delta times themselves. *)
Theorem horizontal_update_correct
    (delta : R) (w : World) (controls : PointerLockControls.t) (camera : Camera) :
  controlsRef w = Some controls ->
  cameraRef w = Some camera ->
  let keys := keysRef w in
  let sprint := has_key keys "ShiftLeft" || has_key keys "ShiftRight" in
  let speed := 12 * (if sprint then 21 / 10 else 1) in
  let intent := intentDirection keys in
  let moving := num_gt (Vector3.lengthSq intent) 0 in
  let vx := Vector3.x (velocityRef w) in
  let vz := Vector3.z (velocityRef w) in
  let vx1 := if moving then vx - Vector3.x intent * speed * delta else vx in
  let vz1 := if moving then vz - Vector3.z intent * speed * delta else vz in
  let w' := updateMovement delta w in
  moveSpeed keys = speed /\
  (moving = true <-> intent <> Vector3.new 0 0 0) /\
  Vector3.x (velocityRef w') = vx1 - vx1 * 8 * delta /\
  Vector3.z (velocityRef w') = vz1 - vz1 * 8 * delta /\
  exists camera',
    cameraRef w' = Some camera' /\
    let moved :=
      PointerLockControls.moveForward
        (PointerLockControls.moveRight camera (- vx1 * delta)) (- vz1 * delta) in
    Vector3.x (cam_position camera') = Vector3.x (cam_position moved) /\
    Vector3.z (cam_position camera') = Vector3.z (cam_position moved).
Proof.
  intros Hcontrols Hcamera keys sprint speed intent moving vx vz vx1 vz1 w'.
  split; [reflexivity|]. split.
  { unfold moving, num_gt, num_lt. destruct intent as [a b c]. unfold Vector3.lengthSq.
    simpl. destruct (Rlt_dec 0 (a * a + b * b + c * c)) as [Hpos | Hzero]; split.
    - intros _ [= -> -> ->]. lra.
    - reflexivity.
    - discriminate.
    - intros Hne. exfalso. apply Hne.
      assert (a = 0 /\ b = 0 /\ c = 0) as (-> & -> & ->) by (repeat split; nra).
      reflexivity. }
  unfold w'. rewrite (updateMovement_mounted delta w controls camera Hcontrols Hcamera).
  cbv zeta. fold keys intent.
  change (moveSpeed keys) with speed.
  set (v1 := accelerate intent speed delta (velocityRef w)).
  assert (Hx : Vector3.x v1 = vx1).
  { unfold v1, accelerate, vx1. fold moving. destruct moving; reflexivity. }
  assert (Hz : Vector3.z v1 = vz1).
  { unfold v1, accelerate, vz1. fold moving. destruct moving; reflexivity. }
  set (v2 := applyGravity delta v1).
  set (c1 := displace delta v2 camera).
  assert (Hclamp :
            Vector3.x (fst (floorClamp v2 c1)) = vx1 /\
            Vector3.z (fst (floorClamp v2 c1)) = vz1 /\
            Vector3.x (cam_position (snd (floorClamp v2 c1))) = Vector3.x (cam_position c1) /\
            Vector3.z (cam_position (snd (floorClamp v2 c1))) = Vector3.z (cam_position c1)).
  { unfold floorClamp. destruct (num_lt _ _); simpl; auto. }
  destruct Hclamp as (Hfx & Hfz & Hcx & Hcz).
  simpl. rewrite Hfx, Hfz. repeat split.
  exists (snd (floorClamp v2 c1)). split; [reflexivity|].
  rewrite Hcx, Hcz. unfold c1, displace, v2, applyGravity. simpl.
  rewrite Hx, Hz. split; reflexivity.
Qed.

Lemma has_key_empty (code : string) : has_key ∅ code = false.
Proof. unfold has_key. apply bool_decide_eq_false. set_solver. Qed.

Lemma intentDirection_no_keys : Vector3.lengthSq (intentDirection ∅) = 0.
Proof.
  unfold intentDirection. rewrite !has_key_empty.
  unfold Vector3.lengthSq, Vector3.normalize, Vector3.divideScalar,
    Vector3.multiplyScalar. simpl. ring.
Qed.

Lemma has_key_two (a b code : string) :
  has_key ({[ a ]} ∪ {[ b ]}) code = (String.eqb code a || String.eqb code b)%bool.
Proof.
  unfold has_key.
  destruct (String.eqb_spec code a) as [-> | Ha]; simpl.
  - apply bool_decide_eq_true, elem_of_union. left. apply elem_of_singleton. reflexivity.
  - destruct (String.eqb_spec code b) as [-> | Hb].
    + apply bool_decide_eq_true, elem_of_union. right. apply elem_of_singleton. reflexivity.
    + apply bool_decide_eq_false. intros H.
      apply elem_of_union in H as [H | H]; apply elem_of_singleton in H; contradiction.
Qed.
(** With D alone among the movement keys the intent points along +X. *)
Lemma intent_right_with_shift :
  intentDirection ({[ "KeyD"%string ]} ∪ {[ "ShiftLeft"%string ]}) = Vector3.new 1 0 0.
Proof.
  unfold intentDirection. rewrite !has_key_two. simpl.
  unfold Vector3.normalize, Vector3.divideScalar, Vector3.multiplyScalar,
    Vector3.length, Vector3.lengthSq, Math.sqrt. simpl.
  replace ((0 + 1) * (0 + 1) + 0 * 0 + 0 * 0) with 1 by ring.
  rewrite sqrt_1.
  assert (Hor : num_or 1 1 = 1) by (unfold num_or; destruct (Req_dec_T 1 0); reflexivity).
  rewrite Hor. f_equal; field.
Qed.

(** A sprinting tick: D and shift held, velocity (1, 0, 2), delta = 10 ms.
    The speed is 12 * 2.1; velocity X first loses 1 * 25.2 * 0.01 and is then
    damped, velocity Z is only damped. *)
Lemma horizontal_update_correct_witness :
  moveSpeed (keysRef sprinting_world) = 12 * (21 / 10) /\
  Vector3.x (velocityRef (updateMovement (1 / 100) sprinting_world)) =
    (1 - 1 * (12 * (21 / 10)) * (1 / 100))
    - (1 - 1 * (12 * (21 / 10)) * (1 / 100)) * 8 * (1 / 100) /\
  Vector3.z (velocityRef (updateMovement (1 / 100) sprinting_world)) =
    (2 - 0 * (12 * (21 / 10)) * (1 / 100))
    - (2 - 0 * (12 * (21 / 10)) * (1 / 100)) * 8 * (1 / 100).
Proof.
  destruct (horizontal_update_correct (1 / 100) sprinting_world PointerLockControls.new
              demo_camera eq_refl eq_refl) as (Hspeed & _ & Hx & Hz & _).
  change (keysRef sprinting_world)
    with ({[ "KeyD"%string ]} ∪ {[ "ShiftLeft"%string ]} : gset string) in *.
  rewrite intent_right_with_shift in Hx, Hz.
  rewrite !has_key_two in Hspeed, Hx, Hz. simpl in Hspeed, Hx, Hz.
  assert (Hmoving : num_gt (Vector3.lengthSq (Vector3.new 1 0 0)) 0 = true)
    by (unfold num_gt; apply num_lt_true; unfold Vector3.lengthSq; simpl; lra).
  rewrite Hmoving in Hx, Hz.
  split; [exact Hspeed|]. split; [exact Hx | exact Hz].
Defined.

(** ** The frame loop *)

(** C9: whatever the clock reports, the delta that a frame hands to the
    movement update is at most 0.05 seconds. *)
Theorem frame_delta_clamped (clockDelta : R) (w : World) :
  animate clockDelta w =
    publishTelemetry (frameDelta clockDelta) (updateMovement (frameDelta clockDelta) w) /\
  frameDelta clockDelta <= 5 / 100.
Proof. split; [reflexivity|]. apply Rmin_r. Qed.

(** ** Telemetry *)

Lemma interactWithVoxel_telemetry (mode : Mode) (intersects : list Intersection) (w : World) :
  lastFrameRef (interactWithVoxel mode intersects w) = lastFrameRef w /\
  (telemetry (interactWithVoxel mode intersects w) = telemetry w \/
   exists n : nat,
     telemetry (interactWithVoxel mode intersects w) =
     (hostNow w, PubBlockCount n) :: telemetry w).
Proof.
  unfold interactWithVoxel.
  destruct (cameraRef w); [|auto]. destruct (sceneRef w); [|auto].
  destruct (List.find isVoxelHit intersects) as [hit|]; [|auto].
  destruct (object hit); [|auto].
  destruct mode.
  - destruct (face hit); [|auto].
    destruct (voxelsRef w !! _); [auto|]. simpl. eauto.
  - destruct (_ <=? _)%Z; [auto|]. simpl. eauto.
Qed.

Lemma updateMovement_telemetry (delta : R) (w : World) :
  telemetry (updateMovement delta w) = telemetry w /\
  lastFrameRef (updateMovement delta w) = lastFrameRef w /\
  hostNow (updateMovement delta w) = hostNow w.
Proof.
  unfold updateMovement.
  destruct (controlsRef w); [|auto]. destruct (cameraRef w); [|auto].
  destruct (floorClamp _ _). auto.
Qed.

Lemma publishTelemetry_cases (delta : R) (w : World) :
  publishTelemetry delta w = w \/
  exists (v : Z) (p : Vector3.t),
    250 <= hostNow w - lastFrameRef w /\
    lastFrameRef (publishTelemetry delta w) = hostNow w /\
    telemetry (publishTelemetry delta w) =
    (hostNow w, PubPosition p) :: (hostNow w, PubFps v) :: telemetry w.
Proof.
  unfold publishTelemetry. destruct (cameraRef w); [|auto].
  unfold num_ge. destruct (Rle_dec 250 _) as [Hgap|]; [|auto].
  right. simpl. eauto.
Qed.

Lemma frame_channels_skip (w w' : World) (t : R) (n : nat) :
  lastFrameRef w' = lastFrameRef w ->
  telemetry w' = telemetry w \/ telemetry w' = (t, PubBlockCount n) :: telemetry w ->
  frame_channels_ok w -> frame_channels_ok w'.
Proof.
  intros Hlast Hlog Hok c Hc. specialize (Hok c Hc).
  rewrite Hlast. destruct Hlog as [-> | ->]; [exact Hok|].
  unfold channel_times. simpl.
  rewrite bool_decide_eq_false_2 by congruence. exact Hok.
Qed.

Lemma frame_channels_publish (w w' : World) (now : R) (v : Z) (p : Vector3.t) :
  250 <= now - lastFrameRef w ->
  lastFrameRef w' = now ->
  telemetry w' = (now, PubPosition p) :: (now, PubFps v) :: telemetry w ->
  frame_channels_ok w -> frame_channels_ok w'.
Proof.
  intros Hgap Hlast Hlog Hok c Hc. destruct (Hok c Hc) as [Hthr Hhead].
  rewrite Hlast, Hlog. unfold channel_times in *. simpl.
  destruct c; [| |congruence]; simpl;
    (split; [|intros t [= <-]; reflexivity]);
    (split; [|exact Hthr]);
    destruct (map fst _) as [|t0 rest]; auto;
    rewrite (Hhead t0 eq_refl); exact Hgap.
Qed.

Lemma deliver_frame_channels (te : R * Event) (w : World) :
  frame_channels_ok w -> frame_channels_ok (deliver te w).
Proof.
  destruct te as [t e]. unfold deliver. simpl fst. simpl snd.
  assert (Hnow : frame_channels_ok w -> frame_channels_ok (set_hostNow w t)) by auto.
  intros Hok. apply Hnow in Hok. clear Hnow.
  set (w0 := set_hostNow w t) in *. clearbody w0.
  destruct e as [code | code | isLocked | button intersects | clockDelta]; simpl.
  - unfold onKeyDown. destruct (_ && _); exact Hok.
  - exact Hok.
  - unfold onPointerLockChange. destruct isLocked; exact Hok.
  - unfold onMouseDown. destruct (negb _); [exact Hok|].
    destruct (interactWithVoxel_telemetry
                (if (button =? 2)%Z then ModeAdd else ModeRemove) intersects w0)
      as [Hlast [Hsame | [n Hpub]]].
    + apply (frame_channels_skip w0 _ 0 0%nat Hlast); auto.
    + apply (frame_channels_skip w0 _ (hostNow w0) n Hlast); auto.
  - unfold animate.
    destruct (updateMovement_telemetry (frameDelta clockDelta) w0) as (Hlog & Hlast & Hnow).
    assert (Hok1 : frame_channels_ok (updateMovement (frameDelta clockDelta) w0))
      by (apply (frame_channels_skip w0 _ 0 0%nat Hlast); auto).
    destruct (publishTelemetry_cases (frameDelta clockDelta)
                (updateMovement (frameDelta clockDelta) w0))
      as [-> | (v & p & Hgap & Hlast' & Hlog')]; [exact Hok1|].
    exact (frame_channels_publish _ _ _ v p Hgap Hlast' Hlog' Hok1).
Qed.

Lemma run_frame_channels (trace : list (R * Event)) (w : World) :
  frame_channels_ok w -> frame_channels_ok (run trace w).
Proof.
  revert w. induction trace as [|te trace IH]; intros w Hok; [exact Hok|].
  simpl. apply IH, deliver_frame_channels, Hok.
Qed.

Lemma updateMovement_keeps_camera (delta : R) (w : World) (camera : Camera) :
  cameraRef w = Some camera ->
  exists camera', cameraRef (updateMovement delta w) = Some camera'.
Proof.
  intros Hcam. unfold updateMovement. rewrite Hcam.
  destruct (controlsRef w); [|eauto]. destruct (floorClamp _ _). simpl. eauto.
Qed.

(** A frame that comes at least 250 ms after [lastFrameRef] does publish. *)
Lemma animate_publishes_when_due (clockDelta : R) (w : World) (camera : Camera) :
  cameraRef w = Some camera ->
  250 <= hostNow w - lastFrameRef w ->
  exists (camera' : Camera) (p : Vector3.t),
    cameraRef (animate clockDelta w) = Some camera' /\
    lastFrameRef (animate clockDelta w) = hostNow w /\
    telemetry (animate clockDelta w) =
    (hostNow w, PubPosition p)
      :: (hostNow w, PubFps (Math.round (1 / frameDelta clockDelta)))
      :: telemetry w.
Proof.
  intros Hcam Hdue. unfold animate.
  destruct (updateMovement_keeps_camera (frameDelta clockDelta) w camera Hcam) as [cam' Hcam'].
  destruct (updateMovement_telemetry (frameDelta clockDelta) w) as (Hlog & Hlast & Hnow).
  unfold publishTelemetry. rewrite Hcam', Hlast, Hnow, num_ge_true by exact Hdue.
  simpl. rewrite Hcam', Hlog, Hnow. eauto.
Qed.

(** A frame that comes earlier publishes nothing. *)
Lemma animate_silent_when_early (clockDelta : R) (w : World) :
  hostNow w - lastFrameRef w < 250 ->
  telemetry (animate clockDelta w) = telemetry w /\
  lastFrameRef (animate clockDelta w) = lastFrameRef w.
Proof.
  intros Hearly. unfold animate.
  destruct (updateMovement_telemetry (frameDelta clockDelta) w) as (Hlog & Hlast & Hnow).
  unfold publishTelemetry. destruct (cameraRef _); [|auto].
  rewrite Hlast, Hnow, num_ge_false by lra. auto.
Qed.

Example two_frames_publish_twice :
  channel_times ChFps (telemetry (run two_frames demo_world)) = [600; 300].
Proof.
  unfold run, two_frames, deliver. simpl fold_left.
  set (w0 := set_hostNow demo_world 300).
  destruct (animate_publishes_when_due (16 / 1000) w0 demo_camera eq_refl)
    as (cam1 & p1 & Hcam1 & Hlast1 & Hlog1); [simpl; lra|].
  set (w1 := set_hostNow (animate (16 / 1000) w0) 600).
  destruct (animate_publishes_when_due (16 / 1000) w1 cam1 Hcam1)
    as (cam2 & p2 & _ & _ & Hlog2); [simpl; rewrite Hlast1; simpl; lra|].
  rewrite Hlog2. simpl. rewrite Hlog1. reflexivity.
Qed.

(** C7, as the code has it: over any sequence of events, starting with
    nothing published, consecutive publications of the FPS estimate are at
    least 250 ms apart, and so are consecutive publications of the camera
    position.  The block count is outside this: it is published by every
    successful add or remove. *)
Theorem frame_telemetry_throttled
    (trace : list (R * Event)) (w0 : World) (c : Channel) :
  telemetry w0 = [] ->
  c <> ChBlockCount ->
  throttled 250 (channel_times c (telemetry (run trace w0))).
Proof.
  intros Hempty Hc.
  apply (run_frame_channels trace w0); [|exact Hc].
  intros c' _. rewrite Hempty. simpl. split; [exact I | discriminate].
Qed.

(** Two frames 300 ms apart. *)
Lemma frame_telemetry_throttled_witness :
  throttled 250 (channel_times ChFps (telemetry (run two_frames demo_world))).
Proof.
  apply (frame_telemetry_throttled two_frames demo_world ChFps); [reflexivity | discriminate].
Defined.

(** The first click of [two_clicks] creates exactly the block that the second
    click hits. *)
Example first_click_creates_block_555 :
  sceneRef (deliver (0, MouseDown 2 [hit_top block_545]) demo_world) =
  Some (demo_scene ++ [MeshObject block_555]).
Proof. vm_compute. reflexivity. Qed.

(** C7 as stated fails for the block count: a double click 100 ms apart
    publishes it twice (3 blocks, then 4), 100 ms apart. *)
Lemma block_count_not_throttled :
  telemetry demo_world = [] /\
  telemetry (run two_clicks demo_world) = [(100, PubBlockCount 4); (0, PubBlockCount 3)] /\
  ~ throttled 250 (channel_times ChBlockCount (telemetry (run two_clicks demo_world))).
Proof.
  split; [reflexivity|].
  assert (E : telemetry (run two_clicks demo_world) =
              [(100, PubBlockCount 4); (0, PubBlockCount 3)])
    by (vm_compute; reflexivity).
  split; [exact E|]. rewrite E. simpl. lra.
Qed.

(** * Further properties of the component *)

(** ** Picking *)

Lemma find_first_voxel (pre post : list Intersection) (hit : Intersection) :
  forallb (fun h => negb (isVoxelHit h)) pre = true ->
  isVoxelHit hit = true ->
  List.find isVoxelHit (pre ++ hit :: post) = Some hit.
Proof.
  intros Hpre Hhit. induction pre as [|h pre IH]; simpl.
  - rewrite Hhit. reflexivity.
  - simpl in Hpre. apply andb_true_iff in Hpre as [Hh Hpre].
    apply negb_true_iff in Hh. rewrite Hh. apply IH, Hpre.
Qed.

Lemma find_no_voxel (hits : list Intersection) :
  forallb (fun h => negb (isVoxelHit h)) hits = true ->
  List.find isVoxelHit hits = None.
Proof.
  induction hits as [|h hits IH]; simpl; [reflexivity|].
  intros H. apply andb_true_iff in H as [Hh H].
  apply negb_true_iff in Hh. rewrite Hh. apply IH, H.
Qed.

(** X1: of all the objects on the ray, the click acts on the nearest one that
    carries the voxel tag: untagged objects in front of it (the ground, the
    lights) and everything behind it make no difference. *)
Theorem nearest_voxel_decides
    (mode : Mode) (pre post : list Intersection) (hit : Intersection) (w : World) :
  forallb (fun h => negb (isVoxelHit h)) pre = true ->
  isVoxelHit hit = true ->
  interactWithVoxel mode (pre ++ hit :: post) w = interactWithVoxel mode [hit] w.
Proof.
  intros Hpre Hhit. unfold interactWithVoxel.
  rewrite (find_first_voxel pre post hit Hpre Hhit).
  simpl List.find. rewrite Hhit. reflexivity.
Qed.

(** With the ground in front and the floor block behind, the click on
    (5,4,5) acts as if that block alone was hit. *)
Lemma nearest_voxel_decides_witness :
  interactWithVoxel ModeRemove [hit_ground; hit_top block_545; hit_top block_505] demo_world =
  interactWithVoxel ModeRemove [hit_top block_545] demo_world.
Proof.
  apply (nearest_voxel_decides ModeRemove [hit_ground] [hit_top block_505]
           (hit_top block_545) demo_world); reflexivity.
Defined.

(** X2: a click whose ray meets no voxel-tagged object (nothing at all, or
    only the ground and the lights) changes nothing, in either mode. *)
Theorem click_without_voxel_is_noop
    (mode : Mode) (hits : list Intersection) (w : World) :
  forallb (fun h => negb (isVoxelHit h)) hits = true ->
  interactWithVoxel mode hits w = w.
Proof.
  intros Hnone. unfold interactWithVoxel.
  rewrite (find_no_voxel hits Hnone).
  destruct (cameraRef w); [|reflexivity]. destruct (sceneRef w); reflexivity.
Qed.

Lemma click_without_voxel_is_noop_witness :
  interactWithVoxel ModeAdd [hit_ground] demo_world = demo_world /\
  interactWithVoxel ModeRemove [] demo_world = demo_world.
Proof.
  split; apply click_without_voxel_is_noop; reflexivity.
Defined.

(** ** What one click does to the registry *)

(** Every outcome of [interactWithVoxel]: nothing, one key deleted (of a cell
    above the floor layer), or one record inserted under a free key. *)
Lemma interactWithVoxel_effect (mode : Mode) (hits : list Intersection) (w : World) :
  let w' := interactWithVoxel mode hits w in
  w' = w \/
  (exists p : Cell.t,
     mode = ModeRemove /\
     (0 < Cell.y p)%Z /\
     voxelsRef w' = delete (key_of_cell p) (voxelsRef w) /\
     blockCount w' = size (voxelsRef w')) \/
  (exists (t : Cell.t) (e : VoxelRegistryEntry),
     mode = ModeAdd /\
     voxelsRef w !! key_of_cell t = None /\
     voxelsRef w' = <[key_of_cell t := e]> (voxelsRef w) /\
     mesh_position (mesh e) = t /\
     ud_position (userData (mesh e)) = t /\
     isVoxel (userData (mesh e)) = true /\
     blockCount w' = size (voxelsRef w')).
Proof.
  unfold interactWithVoxel.
  destruct (cameraRef w); [|auto]. destruct (sceneRef w); [|auto].
  destruct (List.find isVoxelHit hits) as [hit|]; [|auto].
  destruct (object hit) as [obj|]; [|auto].
  destruct mode.
  - destruct (face hit) as [f|]; [|auto].
    destruct (voxelsRef w !! key_of_cell (Cell.add (ud_position (userData obj)) (normal f)))
      eqn:Hfree; [auto|].
    right. right. do 2 eexists. simpl. repeat split. exact Hfree.
  - destruct (Cell.y (ud_position (userData obj)) <=? 0)%Z eqn:Hy; [auto|].
    right. left. exists (ud_position (userData obj)).
    apply Z.leb_gt in Hy. simpl. repeat split. exact Hy.
Qed.

Lemma interactWithVoxel_frame (mode : Mode) (hits : list Intersection) (w : World) :
  let w' := interactWithVoxel mode hits w in
  cameraRef w' = cameraRef w /\ controlsRef w' = controlsRef w /\
  velocityRef w' = velocityRef w /\ keysRef w' = keysRef w /\
  fps w' = fps w /\ hostNow w' = hostNow w.
Proof.
  unfold interactWithVoxel.
  destruct (cameraRef w) eqn:Hcam; [|repeat split; exact Hcam].
  destruct (sceneRef w); [|repeat split; exact Hcam].
  destruct (List.find isVoxelHit hits) as [hit|]; [|repeat split; exact Hcam].
  destruct (object hit) as [obj|]; [|repeat split; exact Hcam].
  destruct mode.
  - destruct (face hit) as [f|]; [|repeat split; exact Hcam].
    destruct (voxelsRef w !! _); simpl; repeat split; exact Hcam.
  - destruct (_ <=? _)%Z; simpl; repeat split; exact Hcam.
Qed.

(** X3: an add never touches a record that is already there: every key keeps
    its record, and the registry grows by at most one. *)
Theorem add_keeps_existing_records (hits : list Intersection) (w : World) :
  let w' := interactWithVoxel ModeAdd hits w in
  (forall (k : string) (e : VoxelRegistryEntry),
     voxelsRef w !! k = Some e -> voxelsRef w' !! k = Some e) /\
  (size (voxelsRef w) <= size (voxelsRef w') <= S (size (voxelsRef w)))%nat.
Proof.
  intros w'. subst w'.
  destruct (interactWithVoxel_effect ModeAdd hits w)
    as [-> | [(p & Hmode & _) | (t & e' & _ & Hfree & Hins & _)]].
  - split; [auto | lia].
  - discriminate Hmode.
  - rewrite Hins. split.
    + intros k e Hk. rewrite lookup_insert_ne; [exact Hk | congruence].
    + rewrite map_size_insert_None by exact Hfree. lia.
Qed.

(** X4: a remove creates and changes no record, and deletes at most one:
    whatever is in the registry afterwards was there before, and the size
    drops by at most one. *)
Theorem remove_only_deletes (hits : list Intersection) (w : World) :
  let w' := interactWithVoxel ModeRemove hits w in
  (forall (k : string) (e : VoxelRegistryEntry),
     voxelsRef w' !! k = Some e -> voxelsRef w !! k = Some e) /\
  (size (voxelsRef w') <= size (voxelsRef w) <= S (size (voxelsRef w')))%nat.
Proof.
  intros w'. subst w'.
  destruct (interactWithVoxel_effect ModeRemove hits w)
    as [-> | [(p & _ & _ & Hdel & _) | (t & e' & Hmode & _)]].
  - split; [auto | lia].
  - rewrite Hdel. split.
    + intros k e Hk. apply lookup_delete_Some in Hk as [_ Hk]. exact Hk.
    + rewrite map_size_delete. destruct (voxelsRef w !! key_of_cell p); simpl; lia.
  - discriminate Hmode.
Qed.

(** ** The registry over whole sessions *)

Lemma updateMovement_registry (delta : R) (w : World) :
  voxelsRef (updateMovement delta w) = voxelsRef w /\
  blockCount (updateMovement delta w) = blockCount w /\
  fps (updateMovement delta w) = fps w.
Proof.
  unfold updateMovement.
  destruct (controlsRef w); [|auto]. destruct (cameraRef w); [|auto].
  destruct (floorClamp _ _). auto.
Qed.

Lemma publishTelemetry_registry (delta : R) (w : World) :
  voxelsRef (publishTelemetry delta w) = voxelsRef w /\
  blockCount (publishTelemetry delta w) = blockCount w /\
  cameraRef (publishTelemetry delta w) = cameraRef w /\
  velocityRef (publishTelemetry delta w) = velocityRef w.
Proof.
  unfold publishTelemetry. destruct (cameraRef w) eqn:Hcam; [|auto].
  destruct (num_ge _ _); simpl; auto.
Qed.

(** What one delivered event does to the registry and to the block count. *)
Lemma deliver_registry (te : R * Event) (w : World) :
  let w' := deliver te w in
  (voxelsRef w' = voxelsRef w /\ blockCount w' = blockCount w) \/
  (exists p : Cell.t,
     (0 < Cell.y p)%Z /\
     voxelsRef w' = delete (key_of_cell p) (voxelsRef w) /\
     blockCount w' = size (voxelsRef w')) \/
  (exists (t : Cell.t) (e : VoxelRegistryEntry),
     voxelsRef w !! key_of_cell t = None /\
     voxelsRef w' = <[key_of_cell t := e]> (voxelsRef w) /\
     mesh_position (mesh e) = t /\
     ud_position (userData (mesh e)) = t /\
     isVoxel (userData (mesh e)) = true /\
     blockCount w' = size (voxelsRef w')).
Proof.
  destruct te as [t e]. unfold deliver. simpl fst. simpl snd.
  change (voxelsRef w) with (voxelsRef (set_hostNow w t)).
  change (blockCount w) with (blockCount (set_hostNow w t)).
  generalize (set_hostNow w t). clear w. intros w.
  destruct e as [code | code | isLocked | button hits | clockDelta]; simpl.
  - left. unfold onKeyDown. destruct (_ && _); auto.
  - left. auto.
  - left. unfold onPointerLockChange. destruct isLocked; auto.
  - unfold onMouseDown. destruct (negb _); [auto|].
    destruct (interactWithVoxel_effect
                (if (button =? 2)%Z then ModeAdd else ModeRemove) hits w)
      as [-> | [(p & _ & H) | (c & e & _ & H)]]; [auto | right; left | right; right]; eauto.
  - left. unfold animate.
    destruct (publishTelemetry_registry (frameDelta clockDelta)
                (updateMovement (frameDelta clockDelta) w)) as (-> & -> & _).
    destruct (updateMovement_registry (frameDelta clockDelta) w) as (-> & -> & _). auto.
Qed.

(** X5: the block count shown on the overlay follows the registry: if it is
    the registry size to begin with (the mount sets it so), it is the registry
    size after any sequence of events. *)
Theorem block_count_follows_registry (trace : list (R * Event)) (w : World) :
  count_in_sync w -> count_in_sync (run trace w).
Proof.
  revert w. induction trace as [|te trace IH]; intros w Hsync; [exact Hsync|].
  simpl. apply IH. unfold count_in_sync in *.
  destruct (deliver_registry te w)
    as [[-> ->] | [(p & _ & _ & H) | (c & e & _ & _ & _ & _ & _ & H)]];
    [exact Hsync | exact H | exact H].
Qed.

Lemma block_count_follows_registry_witness :
  count_in_sync (run two_clicks demo_world).
Proof.
  apply (block_count_follows_registry two_clicks demo_world). reflexivity.
Defined.

(** X6: records stay under the key of their own cell: if every record of the
    registry sits under the key of the cell of its mesh, with the voxel tag
    naming the same cell, then so it is after any sequence of events. *)
Theorem registry_keys_match_cells (trace : list (R * Event)) (w : World) :
  registry_keys_ok w -> registry_keys_ok (run trace w).
Proof.
  revert w. induction trace as [|te trace IH]; intros w Hok; [exact Hok|].
  simpl. apply IH. unfold registry_keys_ok in *.
  destruct (deliver_registry te w)
    as [[-> _] | [(p & _ & -> & _) | (c & e & _ & -> & Hm & Hu & Hv & _)]].
  - exact Hok.
  - intros k e' Hk. apply lookup_delete_Some in Hk as [_ Hk]. exact (Hok k e' Hk).
  - intros k e' Hk. apply lookup_insert_Some in Hk as [[<- <-] | [_ Hk]].
    + rewrite Hm, Hu. auto.
    + exact (Hok k e' Hk).
Qed.

Lemma registry_keys_match_cells_witness :
  registry_keys_ok (run two_clicks demo_world).
Proof.
  apply (registry_keys_match_cells two_clicks demo_world).
  intros k e Hk. unfold demo_world, demo_registry in Hk. simpl in Hk.
  apply lookup_insert_Some in Hk as [[<- <-] | [_ Hk]]; [repeat split|].
  apply lookup_insert_Some in Hk as [[<- <-] | [_ Hk]]; [repeat split|].
  rewrite lookup_empty in Hk. discriminate Hk.
Defined.

Lemma key_of_cell_inj (p q : Cell.t) : key_of_cell p = key_of_cell q -> p = q.
Proof.
  destruct p as [x y z], q as [x' y' z']. unfold key_of_cell, keyFromPosition. simpl.
  intros E.
  apply field_split in E as [Ex E]; try apply js_string_of_Z_no_comma.
  apply field_split in E as [Ey Ez]; try apply js_string_of_Z_no_comma.
  f_equal; apply js_string_of_Z_inj; assumption.
Qed.

(** X7: the floor layer is permanent.  A record under the key of a cell with
    Y <= 0 is still there, unchanged, after any sequence of events: no click
    removes it and no add replaces it. *)
Theorem floor_records_are_permanent
    (trace : list (R * Event)) (w : World) (x y z : Z) (e : VoxelRegistryEntry) :
  (y <= 0)%Z ->
  voxelsRef w !! keyFromPosition x y z = Some e ->
  voxelsRef (run trace w) !! keyFromPosition x y z = Some e.
Proof.
  intros Hy. revert w. induction trace as [|te trace IH]; intros w He; [exact He|].
  simpl. apply IH.
  destruct (deliver_registry te w)
    as [[-> _] | [(p & Hp & -> & _) | (c & e' & Hfree & -> & _)]].
  - exact He.
  - rewrite lookup_delete_ne; [exact He|].
    intros Hk. apply (key_of_cell_inj p (Cell.new x y z)) in Hk. subst p.
    simpl in Hp. lia.
  - rewrite lookup_insert_ne; [exact He|].
    intros Hk. change (keyFromPosition x y z) with (key_of_cell (Cell.new x y z)) in He.
    change (keyFromPosition x y z) with (key_of_cell (Cell.new x y z)) in Hk.
    congruence.
Qed.

(** Left clicks on the floor block (5,0,5), however many, leave its record. *)
Lemma floor_records_are_permanent_witness :
  voxelsRef (run [(0, MouseDown 0 [hit_top block_505]); (400, MouseDown 0 [hit_top block_505])]
               demo_world)
    !! keyFromPosition 5 0 5 = Some (voxel_entry 2 (Cell.new 5 0 5)).
Proof.
  apply floor_records_are_permanent; [lia | reflexivity].
Defined.

(** X8: placing a block and then removing that block restores the registry.
    After an add on a free cell above the floor layer, a remove that hits the
    mesh just created leaves the registry exactly as it was before the add,
    and the block count with it. *)
Theorem add_then_remove_restores
    (w : World) (camera : Camera) (scene : Scene.t)
    (hits : list Intersection) (hit : Intersection) (obj : Mesh) (n : Cell.t)
    (hits2 : list Intersection) (hit2 : Intersection) (e : VoxelRegistryEntry) :
  cameraRef w = Some camera ->
  sceneRef w = Some scene ->
  List.find isVoxelHit hits = Some hit ->
  object hit = MeshObject obj ->
  face hit = Some (mkFace n) ->
  let target := Cell.add (ud_position (userData obj)) n in
  voxelsRef w !! key_of_cell target = None ->
  (0 < Cell.y target)%Z ->
  let w1 := interactWithVoxel ModeAdd hits w in
  voxelsRef w1 !! key_of_cell target = Some e ->
  List.find isVoxelHit hits2 = Some hit2 ->
  object hit2 = MeshObject (mesh e) ->
  let w2 := interactWithVoxel ModeRemove hits2 w1 in
  voxelsRef w2 = voxelsRef w /\ blockCount w2 = size (voxelsRef w).
Proof.
  intros Hcam Hscene Hfind Hobj Hface target Hfree Hy w1 He Hfind2 Hobj2 w2.
  assert (Hw1 : exists (scene1 : Scene.t) (e1 : VoxelRegistryEntry),
             cameraRef w1 = Some camera /\ sceneRef w1 = Some scene1 /\
             voxelsRef w1 = <[key_of_cell target := e1]> (voxelsRef w) /\
             ud_position (userData (mesh e1)) = target).
  { unfold w1.
    rewrite (interact_add w camera scene hits hit obj Hcam Hscene Hfind Hobj n Hface).
    cbv zeta. fold target. rewrite Hfree. simpl. rewrite Hcam. eauto 10. }
  destruct Hw1 as (scene1 & e1 & Hcam1 & Hscene1 & Hreg1 & Hpos1).
  rewrite Hreg1, lookup_insert_eq in He. injection He as <-.
  unfold w2.
  rewrite (interact_remove w1 camera scene1 hits2 hit2 (mesh e1) Hcam1 Hscene1 Hfind2 Hobj2).
  cbv zeta. rewrite Hpos1.
  apply Z.leb_gt in Hy. rewrite Hy. simpl.
  rewrite Hreg1, delete_insert_id by exact Hfree. auto.
Qed.

(** Place a block on (5,4,5), then left-click the new block at (5,5,5). *)
Lemma add_then_remove_restores_witness :
  voxelsRef (interactWithVoxel ModeRemove [hit_top block_555]
               (interactWithVoxel ModeAdd [hit_top block_545] demo_world)) =
  demo_registry.
Proof.
  apply (add_then_remove_restores demo_world demo_camera demo_scene
           [hit_top block_545] (hit_top block_545) block_545 (Cell.new 0 1 0)
           [hit_top block_555] (hit_top block_555) (voxel_entry 3 (Cell.new 5 5 5)));
    reflexivity.
Defined.

(** ** The player over whole sessions *)

(** A tick either finds a handle missing and does nothing, or moves the pair
    (camera Y, velocity Y) by [verticalStep]. *)
Lemma updateMovement_cases (delta : R) (w : World) :
  updateMovement delta w = w \/
  exists cam cam' : Camera,
    cameraRef w = Some cam /\
    cameraRef (updateMovement delta w) = Some cam' /\
    (Vector3.y (cam_position cam'), Vector3.y (velocityRef (updateMovement delta w))) =
    verticalStep delta (Vector3.y (cam_position cam), Vector3.y (velocityRef w)).
Proof.
  destruct (controlsRef w) as [controls|] eqn:Hctl.
  - destruct (cameraRef w) as [cam|] eqn:Hcam.
    + right. destruct (updateMovement_vertical delta w controls cam Hctl Hcam)
        as (cam' & Hcam' & Hstep). eauto.
    + left. unfold updateMovement. rewrite Hctl, Hcam. reflexivity.
  - left. unfold updateMovement. rewrite Hctl. reflexivity.
Qed.

Lemma verticalStep_bounds (delta y vy : R) :
  3 <= fst (verticalStep delta (y, vy)) /\
  - TERMINAL_VELOCITY <= snd (verticalStep delta (y, vy)) /\
  (0 <= delta -> vy <= JUMP_FORCE -> snd (verticalStep delta (y, vy)) <= JUMP_FORCE).
Proof.
  unfold verticalStep, Math.max, GRAVITY, TERMINAL_VELOCITY, JUMP_FORCE.
  set (v := Rmax _ _).
  assert (Hlo : - (48) <= v) by apply Rmax_r.
  assert (Hhi : 0 <= delta -> vy <= 12 -> v <= 12)
    by (intros Hd Hv; apply Rmax_lub; nra).
  unfold num_lt. destruct (Rlt_dec (y + v * delta) 3); simpl; repeat split; lra.
Qed.

Lemma handle_camera_other (e : Event) (w : World) :
  match e with AnimationFrame _ => True | _ => cameraRef (handle e w) = cameraRef w end.
Proof.
  destruct e as [code | code | isLocked | button hits | clockDelta]; simpl; auto.
  - unfold onKeyDown. destruct (_ && _); reflexivity.
  - unfold onPointerLockChange. destruct isLocked; reflexivity.
  - unfold onMouseDown. destruct (negb _); [reflexivity|].
    apply (interactWithVoxel_frame _ hits w).
Qed.

(** X9: the camera never ends an event below the floor: if it starts at or
    above height 3 (the mount puts it at 18), it is at or above 3 after any
    sequence of events, whatever the frame deltas. *)
Theorem camera_stays_above_floor (trace : list (R * Event)) (w : World) :
  camera_above_floor w -> camera_above_floor (run trace w).
Proof.
  revert w. induction trace as [|[t e] trace IH]; intros w Hok; [exact Hok|].
  simpl. apply IH. unfold deliver. simpl fst. simpl snd.
  assert (Hok0 : camera_above_floor (set_hostNow w t)) by exact Hok.
  generalize dependent (set_hostNow w t). clear w Hok. intros w Hok.
  pose proof (handle_camera_other e w) as Hother.
  destruct e as [code | code | isLocked | button hits | clockDelta];
    try (intros cam Hcam; rewrite Hother in Hcam; exact (Hok cam Hcam)).
  clear Hother. simpl. unfold animate. intros cam Hcam.
  destruct (publishTelemetry_registry (frameDelta clockDelta)
              (updateMovement (frameDelta clockDelta) w)) as (_ & _ & Hsame & _).
  rewrite Hsame in Hcam.
  destruct (updateMovement_cases (frameDelta clockDelta) w)
    as [Hnoop | (cam0 & cam' & _ & Hcam' & Hstep)].
  - rewrite Hnoop in Hcam. exact (Hok cam Hcam).
  - rewrite Hcam' in Hcam. injection Hcam as <-.
    pose proof (verticalStep_bounds (frameDelta clockDelta)
                  (Vector3.y (cam_position cam0)) (Vector3.y (velocityRef w))) as [Hy _].
    rewrite <- Hstep in Hy. exact Hy.
Qed.

Lemma camera_stays_above_floor_witness :
  camera_above_floor (run two_frames demo_world).
Proof.
  apply (camera_stays_above_floor two_frames demo_world).
  intros cam [= <-]. simpl. lra.
Defined.

Lemma frameDelta_nonneg (clockDelta : R) : 0 <= clockDelta -> 0 <= frameDelta clockDelta.
Proof. intros H. unfold frameDelta, Math.min. apply Rmin_glb; lra. Qed.

(** X10: vertical speed stays in range: as long as the clock never reports a
    negative delta, velocity Y stays between -48 (terminal velocity) and 12
    (jump speed) through any sequence of key, mouse, pointer-lock and frame
    events. *)
Theorem vertical_speed_stays_in_range (trace : list (R * Event)) (w : World) :
  clock_deltas_from 0 trace ->
  vertical_speed_ok w -> vertical_speed_ok (run trace w).
Proof.
  intros Hclock. revert w.
  induction Hclock as [|[t e] trace He _ IH]; intros w Hok; [exact Hok|].
  simpl. apply IH. unfold deliver. simpl fst. simpl snd.
  assert (Hok0 : vertical_speed_ok (set_hostNow w t)) by exact Hok.
  generalize dependent (set_hostNow w t). clear w Hok. intros w Hok.
  unfold vertical_speed_ok, TERMINAL_VELOCITY, JUMP_FORCE in *. simpl in He.
  destruct e as [code | code | isLocked | button hits | clockDelta]; simpl.
  - unfold onKeyDown. destruct (_ && _); simpl; [unfold JUMP_FORCE; lra | exact Hok].
  - exact Hok.
  - unfold onPointerLockChange. destruct isLocked; simpl; [exact Hok | lra].
  - unfold onMouseDown. destruct (negb _); [exact Hok|].
    destruct (interactWithVoxel_frame
                (if (button =? 2)%Z then ModeAdd else ModeRemove) hits w)
      as (_ & _ & -> & _). exact Hok.
  - unfold animate.
    destruct (publishTelemetry_registry (frameDelta clockDelta)
                (updateMovement (frameDelta clockDelta) w)) as (_ & _ & _ & ->).
    destruct (updateMovement_cases (frameDelta clockDelta) w)
      as [-> | (cam0 & cam' & _ & _ & Hstep)]; [exact Hok|].
    pose proof (verticalStep_bounds (frameDelta clockDelta)
                  (Vector3.y (cam_position cam0)) (Vector3.y (velocityRef w)))
      as (_ & Hlo & Hhi).
    rewrite <- Hstep in Hlo, Hhi. simpl in Hlo, Hhi.
    unfold TERMINAL_VELOCITY, JUMP_FORCE in *.
    split; [exact Hlo|]. apply Hhi; [apply frameDelta_nonneg, He | lra].
Qed.

Lemma vertical_speed_stays_in_range_witness :
  vertical_speed_ok
    (run [(0, KeyDown "Space"); (16, AnimationFrame (16 / 1000))] jumping_world).
Proof.
  apply vertical_speed_stays_in_range.
  - repeat constructor. simpl. lra.
  - unfold vertical_speed_ok, TERMINAL_VELOCITY, JUMP_FORCE. simpl. lra.
Defined.

(** *** Coming to rest from any state *)

Section Landing.
Variable dt : R.
Hypothesis dt_pos : 0 < dt.

Lemma rest_is_absorbing (n : nat) : Nat.iter n (verticalStep dt) (3, 0) = (3, 0).
Proof.
  induction n as [|n IH]; [reflexivity|].
  simpl. rewrite IH. apply verticalStep_at_rest, dt_pos.
Qed.

Lemma falling_lands (y0 : R) (s : R * R) :
  falling dt y0 0 s ->
  exists N : nat, forall n : nat, (N <= n)%nat -> Nat.iter n (verticalStep dt) s = (3, 0).
Proof.
  intros Hs.
  assert (Hiter : forall n, falling dt y0 n (Nat.iter n (verticalStep dt) s)).
  { induction n as [|n IH]; [exact Hs|]. simpl. apply falling_step; assumption. }
  pose proof (descent_positive dt dt_pos) as Hpos.
  set (r := (y0 - 3) / (descentRate dt * dt)).
  destruct (archimed r) as [Hup _].
  exists (Z.to_nat (up r)). intros n Hn.
  destruct (Hiter n) as [Hrest | (Hy & _ & Hbound)]; [exact Hrest|].
  exfalso.
  assert (Hle : IZR (up r) <= INR n).
  { rewrite INR_IZR_INZ. apply IZR_le. lia. }
  assert (Hr : r * (descentRate dt * dt) = y0 - 3).
  { unfold r, Rdiv. rewrite Rmult_assoc, Rinv_l, Rmult_1_r;
      [reflexivity | apply Rgt_not_eq, Hpos]. }
  assert (Hgap : y0 - 3 < INR n * (descentRate dt * dt)).
  { rewrite <- Hr. apply Rmult_lt_compat_r; [exact Hpos | lra]. }
  lra.
Qed.

(** While in the air the velocity loses at least [descentRate dt] per tick,
    until it is no longer upward. *)
Lemma rising_slows (n : nat) (y0 v0 : R) :
  snd (Nat.iter n (verticalStep dt) (y0, v0)) <= Rmax (v0 - INR n * descentRate dt) 0.
Proof.
  assert (Hc1 : descentRate dt <= 30 * dt) by apply Rmin_l.
  assert (Hc0 : 0 < descentRate dt) by (unfold descentRate; apply Rmin_glb_lt; lra).
  induction n as [|n IH].
  - simpl. rewrite Rmult_0_l, Rminus_0_r. apply Rmax_l.
  - rewrite Nat.iter_succ. destruct (Nat.iter n (verticalStep dt) (y0, v0)) as [y vy].
    cbn [snd] in IH. rewrite S_INR.
    set (b := Rmax (v0 - INR n * descentRate dt) 0) in *.
    set (b' := Rmax _ 0).
    assert (Hb : b - descentRate dt <= b').
    { unfold b, b'. unfold Rmax.
      destruct (Rle_dec (v0 - INR n * descentRate dt) 0),
               (Rle_dec (v0 - (INR n + 1) * descentRate dt) 0); lra. }
    assert (Hb0 : 0 <= b') by apply Rmax_r.
    unfold verticalStep, Math.max, GRAVITY, TERMINAL_VELOCITY.
    set (v := Rmax _ _).
    assert (Hv : v <= b') by (apply Rmax_lub; lra).
    unfold num_lt. destruct (Rlt_dec _ 3); simpl; lra.
Qed.

Lemma lands_from_anywhere (y0 v0 : R) :
  exists N : nat, forall n : nat, (N <= n)%nat ->
    Nat.iter n (verticalStep dt) (y0, v0) = (3, 0).
Proof.
  assert (Hc0 : 0 < descentRate dt) by (unfold descentRate; apply Rmin_glb_lt; lra).
  (* after [m] ticks the velocity is no longer upward *)
  set (r := v0 / descentRate dt).
  destruct (archimed r) as [Hup _].
  set (m := Z.to_nat (up r)).
  assert (Hm : v0 - INR m * descentRate dt <= 0).
  { assert (Hle : IZR (up r) <= INR m) by (unfold m; rewrite INR_IZR_INZ; apply IZR_le; lia).
    assert (Hr : r * descentRate dt = v0).
    { unfold r, Rdiv. rewrite Rmult_assoc, Rinv_l, Rmult_1_r;
        [reflexivity | apply Rgt_not_eq, Hc0]. }
    assert (v0 < INR m * descentRate dt);
      [rewrite <- Hr at 1; apply Rmult_lt_compat_r; lra | lra]. }
  pose proof (rising_slows m y0 v0) as Hslow.
  rewrite Rmax_right in Hslow by exact Hm.
  (* one more tick if that left the camera below the floor *)
  assert (Hfall : exists (k : nat) (y1 : R),
             falling dt y1 0 (Nat.iter k (verticalStep dt) (y0, v0))).
  { destruct (Nat.iter m (verticalStep dt) (y0, v0)) as [y vy] eqn:Es.
    cbn [snd] in Hslow.
    destruct (Rlt_dec y 3) as [Hlow | Hhigh].
    - exists (S m), 3. left. rewrite Nat.iter_succ. rewrite Es.
      unfold verticalStep, Math.max, GRAVITY, TERMINAL_VELOCITY.
      set (v := Rmax _ _).
      assert (Hv : v < 0) by (apply Rmax_lub_lt; lra).
      rewrite num_lt_true; [reflexivity | nra].
    - exists m, y. rewrite Es. right. simpl. lra. }
  destruct Hfall as (k & y1 & Hfall).
  destruct (falling_lands y1 _ Hfall) as [N HN].
  exists (N + k)%nat. intros n Hn.
  replace n with ((n - k) + k)%nat by lia.
  rewrite Nat.iter_add. apply HN. lia.
Qed.
End Landing.

(** X11: the player always comes to rest on the floor.  From any camera
    height and any vertical velocity (in the middle of a jump, say), repeating
    the tick with a fixed positive delta reaches a tick from which on the
    camera Y is exactly 3 and velocity Y is 0. *)
Theorem comes_to_rest_from_any_state
    (dt : R) (w : World) (controls : PointerLockControls.t) (camera : Camera) :
  controlsRef w = Some controls ->
  cameraRef w = Some camera ->
  0 < dt ->
  exists N : nat, forall n : nat, (N <= n)%nat ->
    exists camera',
      cameraRef (ticks n dt w) = Some camera' /\
      Vector3.y (cam_position camera') = 3 /\
      Vector3.y (velocityRef (ticks n dt w)) = 0.
Proof.
  intros Hcontrols Hcamera Hdt.
  destruct (lands_from_anywhere dt Hdt (Vector3.y (cam_position camera))
              (Vector3.y (velocityRef w))) as [N HN].
  exists N. intros n Hn.
  destruct (ticks_vertical n dt w controls camera Hcontrols Hcamera)
    as (cam' & Hcam' & _ & Hstate).
  rewrite (HN n Hn) in Hstate. injection Hstate as Hy Hvy.
  exists cam'. auto.
Qed.

(** In the middle of a jump, velocity Y = 12. *)
Lemma comes_to_rest_from_any_state_witness :
  exists N : nat, forall n : nat, (N <= n)%nat ->
    exists camera',
      cameraRef (ticks n (16 / 1000) jumping_world) = Some camera' /\
      Vector3.y (cam_position camera') = 3 /\
      Vector3.y (velocityRef (ticks n (16 / 1000) jumping_world)) = 0.
Proof.
  apply (comes_to_rest_from_any_state (16 / 1000) jumping_world
           PointerLockControls.new demo_camera); [reflexivity | reflexivity | lra].
Defined.

(** ** Horizontal movement over several ticks *)

Lemma lengthSq_nonneg (v : Vector3.t) : 0 <= Vector3.lengthSq v.
Proof. destruct v as [a b c]. unfold Vector3.lengthSq. simpl. nra. Qed.

Lemma normalize_of_zero (v : Vector3.t) :
  Vector3.lengthSq v = 0 -> Vector3.normalize v = Vector3.new 0 0 0.
Proof.
  destruct v as [a b c]. unfold Vector3.lengthSq. simpl. intros H.
  assert (a = 0 /\ b = 0 /\ c = 0) as (-> & -> & ->) by (repeat split; nra).
  unfold Vector3.normalize, Vector3.divideScalar, Vector3.multiplyScalar. simpl.
  f_equal; ring.
Qed.

Lemma normalize_of_nonzero (v : Vector3.t) :
  Vector3.lengthSq v <> 0 -> Vector3.lengthSq (Vector3.normalize v) = 1.
Proof.
  intros Hnz. pose proof (lengthSq_nonneg v) as Hge.
  set (L := Vector3.length v).
  assert (HLL : L * L = Vector3.lengthSq v) by (apply sqrt_sqrt, Hge).
  assert (HL : L <> 0).
  { intros HL0. apply Hnz. rewrite <- HLL, HL0. ring. }
  unfold Vector3.normalize. fold L.
  unfold num_or. destruct (Req_dec_T L 0) as [HL0 | _]; [contradiction|].
  destruct v as [a b c].
  unfold Vector3.lengthSq, Vector3.divideScalar, Vector3.multiplyScalar in *. simpl in *.
  replace (a * (1 / L) * (a * (1 / L)) + b * (1 / L) * (b * (1 / L)) +
           c * (1 / L) * (c * (1 / L)))
    with ((a * a + b * b + c * c) * (/ L * / L)) by (unfold Rdiv; ring).
  rewrite <- HLL. field. exact HL.
Qed.

(** X12: the intent direction is the zero vector or a unit vector, and it is
    horizontal: diagonal movement (two keys held) injects velocity of the same
    magnitude as movement along one axis. *)
Theorem intent_is_zero_or_unit (keys : gset string) :
  Vector3.y (intentDirection keys) = 0 /\
  (intentDirection keys = Vector3.new 0 0 0 \/
   Vector3.lengthSq (intentDirection keys) = 1).
Proof.
  split.
  - unfold intentDirection.
    destruct (has_key keys "KeyW"), (has_key keys "KeyS"),
             (has_key keys "KeyA"), (has_key keys "KeyD");
      unfold Vector3.normalize, Vector3.divideScalar, Vector3.multiplyScalar;
      simpl; ring.
  - unfold intentDirection. cbv zeta.
    match goal with |- context [Vector3.normalize ?d] => generalize d end.
    intros raw. destruct (Req_dec_T (Vector3.lengthSq raw) 0) as [Hz | Hnz].
    + left. apply normalize_of_zero, Hz.
    + right. apply normalize_of_nonzero, Hnz.
Qed.

Lemma intent_cancels (keys : gset string) :
  (has_key keys "KeyW" = has_key keys "KeyS" -> Vector3.z (intentDirection keys) = 0) /\
  (has_key keys "KeyA" = has_key keys "KeyD" -> Vector3.x (intentDirection keys) = 0).
Proof.
  unfold intentDirection.
  destruct (has_key keys "KeyW"), (has_key keys "KeyS"),
           (has_key keys "KeyA"), (has_key keys "KeyD");
    split; intros H; try discriminate H;
    unfold Vector3.normalize, Vector3.divideScalar, Vector3.multiplyScalar;
    simpl; ring.
Qed.

Lemma accelerate_components (d : Vector3.t) (speed delta : R) (v : Vector3.t) :
  (Vector3.x d = 0 -> Vector3.x (accelerate d speed delta v) = Vector3.x v) /\
  (Vector3.z d = 0 -> Vector3.z (accelerate d speed delta v) = Vector3.z v).
Proof.
  unfold accelerate. destruct (num_gt _ _); simpl; split; intros H;
    try reflexivity; rewrite H; ring.
Qed.

(** The horizontal outcome of a tick with both handles in place. *)
Lemma updateMovement_horizontal
    (delta : R) (w : World) (controls : PointerLockControls.t) (camera : Camera) :
  controlsRef w = Some controls ->
  cameraRef w = Some camera ->
  let v1 := accelerate (intentDirection (keysRef w)) (moveSpeed (keysRef w)) delta
              (velocityRef w) in
  let moved :=
    PointerLockControls.moveForward
      (PointerLockControls.moveRight camera (- Vector3.x v1 * delta))
      (- Vector3.z v1 * delta) in
  Vector3.x (velocityRef (updateMovement delta w)) = Vector3.x v1 * (1 - 8 * delta) /\
  Vector3.z (velocityRef (updateMovement delta w)) = Vector3.z v1 * (1 - 8 * delta) /\
  exists camera',
    cameraRef (updateMovement delta w) = Some camera' /\
    controlsRef (updateMovement delta w) = Some controls /\
    keysRef (updateMovement delta w) = keysRef w /\
    yaw camera' = yaw camera /\
    Vector3.x (cam_position camera') = Vector3.x (cam_position moved) /\
    Vector3.z (cam_position camera') = Vector3.z (cam_position moved).
Proof.
  intros Hcontrols Hcamera v1 moved.
  rewrite (updateMovement_mounted delta w controls camera Hcontrols Hcamera).
  cbv zeta. fold v1.
  set (v2 := applyGravity delta v1).
  set (c1 := displace delta v2 camera).
  assert (Hclamp :
            Vector3.x (fst (floorClamp v2 c1)) = Vector3.x v1 /\
            Vector3.z (fst (floorClamp v2 c1)) = Vector3.z v1 /\
            yaw (snd (floorClamp v2 c1)) = yaw camera /\
            Vector3.x (cam_position (snd (floorClamp v2 c1))) = Vector3.x (cam_position moved) /\
            Vector3.z (cam_position (snd (floorClamp v2 c1))) = Vector3.z (cam_position moved)).
  { unfold floorClamp. destruct (num_lt _ _); simpl; auto. }
  destruct Hclamp as (Hx & Hz & Hyaw & Hcx & Hcz).
  simpl. rewrite Hx, Hz. split; [ring|]. split; [ring|].
  exists (snd (floorClamp v2 c1)). rewrite Hcontrols. auto 10.
Qed.

(** X13: opposite keys cancel.  With W and S both held (or both released)
    a tick does nothing to velocity Z but damp it, and likewise for A, D and
    velocity X, whatever else is held. *)
Theorem opposite_keys_cancel
    (delta : R) (w : World) (controls : PointerLockControls.t) (camera : Camera) :
  controlsRef w = Some controls ->
  cameraRef w = Some camera ->
  (has_key (keysRef w) "KeyW" = has_key (keysRef w) "KeyS" ->
   Vector3.z (velocityRef (updateMovement delta w)) =
   Vector3.z (velocityRef w) - Vector3.z (velocityRef w) * 8 * delta) /\
  (has_key (keysRef w) "KeyA" = has_key (keysRef w) "KeyD" ->
   Vector3.x (velocityRef (updateMovement delta w)) =
   Vector3.x (velocityRef w) - Vector3.x (velocityRef w) * 8 * delta).
Proof.
  intros Hcontrols Hcamera.
  destruct (updateMovement_horizontal delta w controls camera Hcontrols Hcamera)
    as (Hx & Hz & _).
  destruct (intent_cancels (keysRef w)) as [Hws Had].
  destruct (accelerate_components (intentDirection (keysRef w)) (moveSpeed (keysRef w))
              delta (velocityRef w)) as [Hax Haz].
  split; intros Heq.
  - rewrite Hz, (Haz (Hws Heq)). ring.
  - rewrite Hx, (Hax (Had Heq)). ring.
Qed.

(** W and S held together while moving sideways. *)
Lemma opposite_keys_cancel_witness :
  Vector3.z (velocityRef (updateMovement (16 / 1000) strafing_world)) =
  0 - 0 * 8 * (16 / 1000).
Proof.
  apply (opposite_keys_cancel (16 / 1000) strafing_world PointerLockControls.new
           demo_camera eq_refl eq_refl).
  change (keysRef strafing_world) with ({[ "KeyW"%string ]} ∪ {[ "KeyS"%string ]} : gset string).
  rewrite !has_key_two. reflexivity.
Defined.

Lemma moved_position (c : Camera) (d1 d2 : R) :
  let moved := PointerLockControls.moveForward (PointerLockControls.moveRight c d1) d2 in
  Vector3.x (cam_position moved) =
    Vector3.x (cam_position c) + cos (yaw c) * d1 - sin (yaw c) * d2 /\
  Vector3.z (cam_position moved) =
    Vector3.z (cam_position c) - sin (yaw c) * d1 - cos (yaw c) * d2.
Proof. simpl. split; ring. Qed.

(** Ticks while the two pairs of opposite keys cancel: the handles and the
    keys stay, and the horizontal velocity is only damped. *)
Lemma ticks_coasting
    (n : nat) (dt : R) (w : World) (controls : PointerLockControls.t) (camera : Camera) :
  controlsRef w = Some controls ->
  cameraRef w = Some camera ->
  has_key (keysRef w) "KeyW" = has_key (keysRef w) "KeyS" ->
  has_key (keysRef w) "KeyA" = has_key (keysRef w) "KeyD" ->
  exists camera',
    cameraRef (ticks n dt w) = Some camera' /\
    controlsRef (ticks n dt w) = Some controls /\
    keysRef (ticks n dt w) = keysRef w /\
    Vector3.x (velocityRef (ticks n dt w)) = Vector3.x (velocityRef w) * (1 - 8 * dt) ^ n /\
    Vector3.z (velocityRef (ticks n dt w)) = Vector3.z (velocityRef w) * (1 - 8 * dt) ^ n.
Proof.
  intros Hcontrols Hcamera Hws Had.
  induction n as [|n (cam & Hcam & Hctl & Hkeys & Hx & Hz)].
  - exists camera. simpl. repeat split; try assumption; ring.
  - unfold ticks in *. rewrite Nat.iter_succ.
    set (wn := Nat.iter n (updateMovement dt) w) in *.
    destruct (updateMovement_horizontal dt wn controls cam Hctl Hcam)
      as (Hx' & Hz' & cam' & Hcam' & Hctl' & Hkeys' & _).
    destruct (intent_cancels (keysRef wn)) as [Hiz Hix].
    rewrite Hkeys in Hiz, Hix.
    destruct (accelerate_components (intentDirection (keysRef wn)) (moveSpeed (keysRef wn))
                dt (velocityRef wn)) as [Hax Haz].
    rewrite Hkeys in Hax, Haz. rewrite Hkeys in Hx', Hz'.
    exists cam'. split; [exact Hcam'|]. split; [exact Hctl'|].
    split; [congruence|].
    rewrite Hx', Hz', (Hax (Hix Had)), (Haz (Hiz Hws)), Hx, Hz. simpl. split; ring.
Qed.

Lemma pow_unit_interval (q : R) (n : nat) : 0 <= q <= 1 -> 0 <= q ^ n <= 1.
Proof.
  intros Hq. split; [apply pow_le; lra|].
  rewrite <- (pow1 n). apply pow_incr. exact Hq.
Qed.

(** X14: coasting.  While the opposite keys cancel (none held, or W with S
    and A with D), [n] ticks with a fixed delta multiply the horizontal
    velocity by (1 - 8 delta)^n; for a delta inside the frame clamp,
    0 <= delta <= 0.05, the speed never grows and never changes sign. *)
Theorem coasting_velocity_decays
    (n : nat) (dt : R) (w : World) (controls : PointerLockControls.t) (camera : Camera) :
  controlsRef w = Some controls ->
  cameraRef w = Some camera ->
  has_key (keysRef w) "KeyW" = has_key (keysRef w) "KeyS" ->
  has_key (keysRef w) "KeyA" = has_key (keysRef w) "KeyD" ->
  let vx := Vector3.x (velocityRef w) in
  let vz := Vector3.z (velocityRef w) in
  let vx' := Vector3.x (velocityRef (ticks n dt w)) in
  let vz' := Vector3.z (velocityRef (ticks n dt w)) in
  vx' = vx * (1 - 8 * dt) ^ n /\
  vz' = vz * (1 - 8 * dt) ^ n /\
  (0 <= dt <= 5 / 100 ->
   Rabs vx' <= Rabs vx /\ Rabs vz' <= Rabs vz /\ 0 <= vx * vx' /\ 0 <= vz * vz').
Proof.
  intros Hcontrols Hcamera Hws Had vx vz vx' vz'.
  destruct (ticks_coasting n dt w controls camera Hcontrols Hcamera Hws Had)
    as (_ & _ & _ & _ & Hx & Hz).
  fold vx vx' in Hx. fold vz vz' in Hz.
  split; [exact Hx|]. split; [exact Hz|].
  intros Hdt. rewrite Hx, Hz.
  destruct (pow_unit_interval (1 - 8 * dt) n) as [Hq0 Hq1]; [lra|].
  set (q := (1 - 8 * dt) ^ n) in *.
  rewrite !Rabs_mult, (Rabs_pos_eq q Hq0).
  pose proof (Rabs_pos vx). pose proof (Rabs_pos vz).
  repeat split; nra.
Qed.

(** Sliding sideways at 2 units per second with W and S held: 10 ticks. *)
Lemma coasting_velocity_decays_witness :
  Vector3.x (velocityRef (ticks 10 (16 / 1000) strafing_world)) =
  2 * (1 - 8 * (16 / 1000)) ^ 10.
Proof.
  apply (coasting_velocity_decays 10 (16 / 1000) strafing_world
           PointerLockControls.new demo_camera eq_refl eq_refl);
    change (keysRef strafing_world)
      with ({[ "KeyW"%string ]} ∪ {[ "KeyS"%string ]} : gset string);
    rewrite !has_key_two; reflexivity.
Defined.

(** X15: releasing the pointer lock stops the player on the spot.  After the
    release, however many ticks follow, velocity X and Z are 0 and the camera
    keeps its X and Z, even if movement keys were held and the player was
    moving when the lock was lost. *)
Theorem release_stops_the_player
    (n : nat) (dt : R) (w : World) (controls : PointerLockControls.t) (camera : Camera) :
  controlsRef w = Some controls ->
  cameraRef w = Some camera ->
  let w' := ticks n dt (onPointerLockChange false w) in
  Vector3.x (velocityRef w') = 0 /\
  Vector3.z (velocityRef w') = 0 /\
  exists camera',
    cameraRef w' = Some camera' /\
    Vector3.x (cam_position camera') = Vector3.x (cam_position camera) /\
    Vector3.z (cam_position camera') = Vector3.z (cam_position camera).
Proof.
  intros Hcontrols Hcamera w'. subst w'.
  set (w0 := onPointerLockChange false w).
  assert (Hinv : exists cam,
             cameraRef (ticks n dt w0) = Some cam /\
             controlsRef (ticks n dt w0) = Some controls /\
             keysRef (ticks n dt w0) = ∅ /\
             Vector3.x (velocityRef (ticks n dt w0)) = 0 /\
             Vector3.z (velocityRef (ticks n dt w0)) = 0 /\
             Vector3.x (cam_position cam) = Vector3.x (cam_position camera) /\
             Vector3.z (cam_position cam) = Vector3.z (cam_position camera)).
  { induction n as [|n (cam & Hcam & Hctl & Hkeys & Hvx & Hvz & Hx & Hz)].
    - exists camera. simpl. auto 10.
    - unfold ticks in *. rewrite Nat.iter_succ.
      set (wn := Nat.iter n (updateMovement dt) w0) in *.
      destruct (updateMovement_horizontal dt wn controls cam Hctl Hcam)
        as (Hvx' & Hvz' & cam' & Hcam' & Hctl' & Hkeys' & _ & Hx' & Hz').
      destruct (intent_cancels (keysRef wn)) as [Hiz Hix].
      destruct (accelerate_components (intentDirection (keysRef wn))
                  (moveSpeed (keysRef wn)) dt (velocityRef wn)) as [Hax Haz].
      assert (Hws : has_key (keysRef wn) "KeyW" = has_key (keysRef wn) "KeyS")
        by (rewrite Hkeys, !has_key_empty; reflexivity).
      assert (Had : has_key (keysRef wn) "KeyA" = has_key (keysRef wn) "KeyD")
        by (rewrite Hkeys, !has_key_empty; reflexivity).
      specialize (Hax (Hix Had)). specialize (Haz (Hiz Hws)).
      rewrite Hvx in Hax. rewrite Hvz in Haz.
      destruct (moved_position cam (- 0 * dt) (- 0 * dt)) as [Hmx Hmz].
      rewrite Hax in Hvx'. rewrite Haz in Hvz'. rewrite Hax, Haz in Hx', Hz'.
      exists cam'. split; [exact Hcam'|]. split; [exact Hctl'|].
      split; [congruence|].
      rewrite Hvx', Hvz', Hx', Hz', Hmx, Hmz, Hx, Hz. repeat split; ring. }
  destruct Hinv as (cam & Hcam & _ & _ & Hvx & Hvz & Hx & Hz).
  split; [exact Hvx|]. split; [exact Hvz|]. exists cam. auto.
Qed.

(** The lock is lost in the middle of a jump with D held. *)
Lemma release_stops_the_player_witness :
  Vector3.x (velocityRef (ticks 5 (16 / 1000) (onPointerLockChange false jumping_world))) = 0.
Proof.
  apply (release_stops_the_player 5 (16 / 1000) jumping_world
           PointerLockControls.new demo_camera eq_refl eq_refl).
Defined.

(** ** Telemetry over whole sessions *)

(** What one delivered event adds to the telemetry log. *)
Lemma deliver_telemetry (te : R * Event) (w : World) :
  let w' := deliver te w in
  telemetry w' = telemetry w \/
  (exists n : nat, telemetry w' = (fst te, PubBlockCount n) :: telemetry w) \/
  (exists (clockDelta : R) (p : Vector3.t),
     snd te = AnimationFrame clockDelta /\
     telemetry w' =
     (fst te, PubPosition p)
       :: (fst te, PubFps (Math.round (1 / frameDelta clockDelta)))
       :: telemetry w).
Proof.
  destruct te as [t e]. unfold deliver. simpl fst. simpl snd.
  change (telemetry w) with (telemetry (set_hostNow w t)).
  assert (Hnow : hostNow (set_hostNow w t) = t) by reflexivity.
  revert Hnow. generalize (set_hostNow w t). clear w. intros w Hnow.
  destruct e as [code | code | isLocked | button hits | clockDelta]; simpl.
  - left. unfold onKeyDown. destruct (_ && _); reflexivity.
  - left. reflexivity.
  - left. unfold onPointerLockChange. destruct isLocked; reflexivity.
  - unfold onMouseDown. destruct (negb _); [auto|].
    destruct (interactWithVoxel_telemetry
                (if (button =? 2)%Z then ModeAdd else ModeRemove) hits w)
      as [_ [Hsame | [n Hpub]]]; [auto|].
    right. left. exists n. rewrite Hpub, Hnow. reflexivity.
  - unfold animate.
    destruct (updateMovement_telemetry (frameDelta clockDelta) w) as (Hlog & _ & Hnow').
    unfold publishTelemetry.
    destruct (cameraRef (updateMovement (frameDelta clockDelta) w)) as [cam|];
      [|left; exact Hlog].
    destruct (num_ge _ _); [|left; exact Hlog].
    right. right. exists clockDelta. eexists. split; [reflexivity|].
    simpl. rewrite Hlog, Hnow', Hnow. reflexivity.
Qed.

(** X16: the FPS estimate and the camera position reach the overlay together:
    over any sequence of events, starting with nothing published, the two are
    published at the same times. *)
Theorem fps_and_position_published_together
    (trace : list (R * Event)) (w0 : World) :
  telemetry w0 = [] ->
  channel_times ChFps (telemetry (run trace w0)) =
  channel_times ChPosition (telemetry (run trace w0)).
Proof.
  intros Hempty.
  assert (Hgen : forall w,
             channel_times ChFps (telemetry w) = channel_times ChPosition (telemetry w) ->
             channel_times ChFps (telemetry (run trace w)) =
             channel_times ChPosition (telemetry (run trace w))).
  { induction trace as [|te trace IH]; intros w Hw; [exact Hw|].
    simpl. apply IH.
    destruct (deliver_telemetry te w) as [-> | [[n ->] | (d & p & _ & ->)]].
    - exact Hw.
    - unfold channel_times in *. simpl. exact Hw.
    - unfold channel_times in *. simpl. f_equal. exact Hw. }
  apply Hgen. rewrite Hempty. reflexivity.
Qed.

Lemma fps_and_position_published_together_witness :
  channel_times ChFps (telemetry (run two_frames demo_world)) =
  channel_times ChPosition (telemetry (run two_frames demo_world)).
Proof.
  apply (fps_and_position_published_together two_frames demo_world). reflexivity.
Defined.





(** *** How high a jump goes *)

(** Height plus velocity squared over twice the gravity does not grow in a
    tick whose delta is inside the frame clamp. *)
Lemma verticalStep_height_bound (dt y vy : R) :
  0 <= dt <= 5 / 100 ->
  3 <= y ->
  let s := verticalStep dt (y, vy) in
  3 <= fst s /\ fst s + snd s * snd s / 60 <= y + vy * vy / 60.
Proof.
  intros Hdt Hy s. subst s.
  unfold verticalStep, Math.max, GRAVITY, TERMINAL_VELOCITY.
  assert (Hv : Rmax (vy - 30 * dt) (- (48)) = vy - 30 * dt /\ - (48) <= vy - 30 * dt \/
               Rmax (vy - 30 * dt) (- (48)) = - (48) /\ vy - 30 * dt <= - (48)).
  { unfold Rmax. destruct (Rle_dec (vy - 30 * dt) (- (48))); [right | left]; lra. }
  set (v := Rmax _ _) in *.
  unfold num_lt. destruct (Rlt_dec (y + v * dt) 3) as [Hlow | Hhigh]; simpl.
  - split; [lra | nra].
  - split; [lra|]. destruct Hv as [[-> Hge] | [-> Hle]]; nra.
Qed.

Lemma iter_height_bound (n : nat) (dt y0 v0 : R) :
  0 <= dt <= 5 / 100 ->
  3 <= y0 ->
  let s := Nat.iter n (verticalStep dt) (y0, v0) in
  3 <= fst s /\ fst s + snd s * snd s / 60 <= y0 + v0 * v0 / 60.
Proof.
  intros Hdt Hy0. induction n as [|n [IHy IHe]]; [simpl; lra|].
  cbv zeta. rewrite Nat.iter_succ.
  destruct (Nat.iter n (verticalStep dt) (y0, v0)) as [y vy]. simpl in IHy, IHe.
  destruct (verticalStep_height_bound dt y vy Hdt IHy) as [Hy He].
  split; [exact Hy | lra].
Qed.

(** X18: how high the player gets.  With frame deltas inside the clamp
    (0 <= delta <= 0.05), a camera that starts at or above the floor with
    velocity Y = vy never rises above its starting height plus vy^2 / 60;
    for a jump from the floor (height 3, velocity 12) that is 5.4. *)
Theorem jump_height_is_bounded
    (n : nat) (dt : R) (w : World) (controls : PointerLockControls.t) (camera : Camera) :
  controlsRef w = Some controls ->
  cameraRef w = Some camera ->
  0 <= dt <= 5 / 100 ->
  3 <= Vector3.y (cam_position camera) ->
  exists camera',
    cameraRef (ticks n dt w) = Some camera' /\
    Vector3.y (cam_position camera') <=
    Vector3.y (cam_position camera) +
    Vector3.y (velocityRef w) * Vector3.y (velocityRef w) / 60.
Proof.
  intros Hcontrols Hcamera Hdt Hy0.
  destruct (ticks_vertical n dt w controls camera Hcontrols Hcamera)
    as (cam' & Hcam' & _ & Hstate).
  destruct (iter_height_bound n dt _ (Vector3.y (velocityRef w)) Hdt Hy0) as [Hy He].
  rewrite <- Hstate in Hy, He. simpl in Hy, He.
  exists cam'. split; [exact Hcam'|]. nra.
Qed.

(** Near the top of a jump from the floor, 25 ticks after take-off, the
    camera is at or below 5.4. *)
Lemma jump_height_is_bounded_witness :
  exists camera',
    cameraRef (ticks 25 (16 / 1000) takeoff_world) = Some camera' /\
    Vector3.y (cam_position camera') <= 54 / 10.
Proof.
  destruct (jump_height_is_bounded 25 (16 / 1000) takeoff_world PointerLockControls.new
              (mkCamera (Vector3.new 0 3 24) 0) eq_refl eq_refl)
    as (cam' & Hcam' & Hbound); [lra | simpl; lra |].
  exists cam'. split; [exact Hcam'|]. simpl in Hbound. lra.
Defined.

(** ** Editing needs the pointer lock *)

Lemma updateMovement_host (delta : R) (w : World) :
  pointerLocked (updateMovement delta w) = pointerLocked w /\
  sceneRef (updateMovement delta w) = sceneRef w.
Proof.
  unfold updateMovement.
  destruct (controlsRef w); [|auto]. destruct (cameraRef w); [|auto].
  destruct (floorClamp _ _). auto.
Qed.

Lemma publishTelemetry_host (delta : R) (w : World) :
  pointerLocked (publishTelemetry delta w) = pointerLocked w /\
  sceneRef (publishTelemetry delta w) = sceneRef w.
Proof.
  unfold publishTelemetry. destruct (cameraRef w); [|auto].
  destruct (num_ge _ _); simpl; auto.
Qed.

(** X19: without the pointer lock nothing can be edited.  While the pointer
    is not locked and no event reports that the lock was gained, no sequence
    of clicks, keys and frames changes the registry, the scene or the block
    count: a click then only asks for the lock. *)
Theorem no_edit_without_pointer_lock (trace : list (R * Event)) (w : World) :
  pointerLocked w = false ->
  never_locks trace ->
  voxelsRef (run trace w) = voxelsRef w /\
  sceneRef (run trace w) = sceneRef w /\
  blockCount (run trace w) = blockCount w /\
  pointerLocked (run trace w) = false.
Proof.
  intros Hunlocked Htrace. revert w Hunlocked.
  induction Htrace as [|[t e] trace He _ IH]; intros w Hunlocked; [auto|].
  simpl.
  assert (Hstep : voxelsRef (deliver (t, e) w) = voxelsRef w /\
                  sceneRef (deliver (t, e) w) = sceneRef w /\
                  blockCount (deliver (t, e) w) = blockCount w /\
                  pointerLocked (deliver (t, e) w) = false).
  { unfold deliver. simpl fst. simpl snd. simpl in He.
    destruct e as [code | code | isLocked | button hits | clockDelta]; simpl.
    - unfold onKeyDown. destruct (_ && _); simpl; auto.
    - auto.
    - destruct isLocked; [contradiction|]. simpl. auto.
    - unfold onMouseDown. simpl. rewrite Hunlocked. simpl. auto.
    - unfold animate.
      set (w1 := updateMovement (frameDelta clockDelta) (set_hostNow w t)).
      destruct (publishTelemetry_registry (frameDelta clockDelta) w1) as (-> & -> & _).
      destruct (publishTelemetry_host (frameDelta clockDelta) w1) as (-> & ->).
      destruct (updateMovement_registry (frameDelta clockDelta) (set_hostNow w t))
        as (Hv & Hb & _).
      destruct (updateMovement_host (frameDelta clockDelta) (set_hostNow w t)) as (Hp & Hs).
      unfold w1. rewrite Hv, Hb, Hp, Hs. simpl. auto. }
  destruct Hstep as (Hv & Hs & Hb & Hp).
  destruct (IH _ Hp) as (-> & -> & -> & ->). auto.
Qed.

(** Clicks on (5,4,5) after the lock was lost. *)
Lemma no_edit_without_pointer_lock_witness :
  voxelsRef (run two_clicks (onPointerLockChange false demo_world)) = demo_registry.
Proof.
  apply (no_edit_without_pointer_lock two_clicks (onPointerLockChange false demo_world));
    [reflexivity | repeat constructor].
Defined.
